(** * Tag type definitions cache: a shallow embedding of [tag_types.py]

    The development follows [custom_components/opendisplay/tag_types.py]:

    - [Py]: the fragment of Python's data and builtins the module relies on
      (JSON values, [dict.get], [in], [list()], [int(s, base)], exceptions);
    - [TagType]: the record class with its constructor, [to_dict],
      [from_dict] and [get];
    - [TagTypesManager]: the cache manager, written in a state-and-exception
      monad over the manager's fields and the outside world (the two stores,
      the legacy file, the clock and the network);
    - the theorems about them. *)

From Stdlib Require Import ZArith String Ascii List Bool Lia.
From stdpp Require Import base option list gmap strings pretty.

Local Open Scope string_scope.
Local Open Scope Z_scope.

(** ** Python values and builtins *)

Module Py.

(** A value as [json.loads] produces it (floats are left out: nothing in the
    module computes with them).  A [dict] keeps its items in insertion
    order; lookup takes the first item with the key. *)
#[warnings="-register-all"]
Inductive pyval : Type :=
| PNone
| PBool (b : bool)
| PInt (n : Z)
| PStr (s : string)
| PList (l : list pyval)
| PDict (d : list (string * pyval)).

Abbreviation dict := (list (string * pyval)).

(** The exceptions the module meets.  [JSONDecodeError] is a subclass of
    [ValueError]; [NetworkError] stands for what aiohttp raises and for the
    bare [Exception] raised on a bad HTTP status. *)
Inductive exn : Type :=
| TypeError | ValueError | KeyError | AttributeError
| JSONDecodeError | OSError | NetworkError.

(** A computation that returns or raises. *)
Inductive res (A : Type) : Type :=
| Ret (a : A)
| Raise (e : exn).
Arguments Ret {A} a.
Arguments Raise {A} e.

#[global] Instance res_ret : MRet res := fun _ a => Ret a.
#[global] Instance res_bind : MBind res := fun _ _ f r =>
  match r with Ret a => f a | Raise e => Raise e end.

Definition is_ret {A} (r : res A) : bool :=
  match r with Ret _ => true | Raise _ => false end.

(** [d[k]] for the first item with key [k]. *)
Fixpoint lookup_item (k : string) (d : dict) : option pyval :=
  match d with
  | [] => None
  | (k', v) :: d' => if String.eqb k k' then Some v else lookup_item k d'
  end.

(** [d.get(k, default)]: the stored value when the key is present, whatever
    that value is, and [default] only when the key is missing. *)
Definition dict_get (d : dict) (k : string) (default : pyval) : pyval :=
  match lookup_item k d with Some v => v | None => default end.

(** [k in d] *)
Definition dict_has (d : dict) (k : string) : bool :=
  match lookup_item k d with Some _ => true | None => false end.

(** The keys of a dict, each once, in order of first insertion. *)
Fixpoint dict_keys (d : dict) : list string :=
  match d with
  | [] => []
  | (k, _) :: d' => k :: filter (fun k' => k' ≠ k) (dict_keys d')
  end.

(** Truth value of an object, as [if x:] and [not x] test it. *)
Definition truthy (v : pyval) : bool :=
  match v with
  | PNone => false
  | PBool b => b
  | PInt n => negb (n =? 0)
  | PStr s => negb (String.eqb s "")
  | PList l => match l with [] => false | _ => true end
  | PDict d => match d with [] => false | _ => true end
  end.

(** [v == n] for an int [n]: [True == 1] holds in Python. *)
Definition eq_int (v : pyval) (n : Z) : bool :=
  match v with
  | PInt m => m =? n
  | PBool b => (if b then 1 else 0) =? n
  | _ => false
  end.

Definition chars (s : string) : list pyval :=
  (fun c => PStr (String c "")) <$> list_ascii_of_string s.

(** [iter(v)]: the items a [for] loop or [list()] runs through. *)
Definition py_iter (v : pyval) : res (list pyval) :=
  match v with
  | PList l => Ret l
  | PStr s => Ret (chars s)
  | PDict d => Ret (PStr <$> dict_keys d)
  | PNone | PBool _ | PInt _ => Raise TypeError
  end.

(** [list(v)] *)
Definition py_list (v : pyval) : res pyval := l ← py_iter v; mret (PList l).

Definition is_list (v : pyval) : bool :=
  match v with PList _ => true | _ => false end.

Fixpoint is_substring (sub s : string) : bool :=
  String.prefix sub s ||
  match s with
  | EmptyString => false
  | String _ s' => is_substring sub s'
  end.

Definition is_pystr (k : string) (v : pyval) : bool :=
  match v with PStr s => String.eqb s k | _ => false end.

(** [k in v] for a string [k]: key of a dict, element of a list, substring
    of a string; any other right operand is not iterable. *)
Definition py_in (k : string) (v : pyval) : res bool :=
  match v with
  | PDict d => Ret (dict_has d k)
  | PList l => Ret (existsb (is_pystr k) l)
  | PStr s => Ret (is_substring k s)
  | PNone | PBool _ | PInt _ => Raise TypeError
  end.

(** [v[k]] for a string [k] *)
Definition py_getitem (v : pyval) (k : string) : res pyval :=
  match v with
  | PDict d => match lookup_item k d with Some x => Ret x | None => Raise KeyError end
  | _ => Raise TypeError
  end.

(** [s.endswith(suffix)] *)
Definition endswith (s suffix : string) : bool :=
  let n := String.length s in
  let m := String.length suffix in
  (m <=? n)%nat && String.eqb (String.substring (n - m) m s) suffix.

(** [s[:-k]] *)
Definition drop_last (k : nat) (s : string) : string :=
  String.substring 0 (String.length s - k) s.

(** *** [int(s, base)]

    The text is an ASCII string: optional blanks, an optional sign, for base
    16 an optional [0x] or [0X] (one underscore may follow it), then digits
    with single underscores between them, then optional blanks. *)

Definition is_space (c : ascii) : bool :=
  let n := nat_of_ascii c in
  (n =? 32)%nat || ((9 <=? n)%nat && (n <=? 13)%nat).

Definition digit_val (c : ascii) : option Z :=
  let n := Z.of_nat (nat_of_ascii c) in
  if (48 <=? n) && (n <=? 57) then Some (n - 48)
  else if (97 <=? n) && (n <=? 122) then Some (n - 87)
  else if (65 <=? n) && (n <=? 90) then Some (n - 55)
  else None.

Definition is_underscore (c : ascii) : bool := (nat_of_ascii c =? 95)%nat.

(** The digit loop: [prev] tells that the previous character was an
    underscore, [seen] that a digit was read.  It stops at the first
    character that is neither a digit of the base nor an underscore. *)
Fixpoint scan_digits (base acc : Z) (prev seen : bool) (s : list ascii)
  : option (Z * list ascii) :=
  let stop := if prev then None else if seen then Some (acc, s) else None in
  match s with
  | [] => stop
  | c :: s' =>
      if is_underscore c then
        if prev then None else scan_digits base acc true seen s'
      else
        match digit_val c with
        | Some d =>
            if d <? base then scan_digits base (acc * base + d) false true s'
            else stop
        | None => stop
        end
  end.

Definition skip_prefix (base : Z) (s : list ascii) : list ascii :=
  match s with
  | z :: x :: s' =>
      if (base =? 16) && (nat_of_ascii z =? 48)%nat
         && ((nat_of_ascii x =? 120)%nat || (nat_of_ascii x =? 88)%nat)
      then match s' with
           | u :: s'' => if is_underscore u then s'' else s'
           | [] => s'
           end
      else s
  | _ => s
  end.

Fixpoint skip_spaces (s : list ascii) : list ascii :=
  match s with
  | c :: s' => if is_space c then skip_spaces s' else s
  | [] => []
  end.

Definition parse_int (base : Z) (s : list ascii) : option Z :=
  let s := skip_spaces s in
  let '(neg, s) :=
    match s with
    | c :: s' =>
        if (nat_of_ascii c =? 45)%nat then (true, s')
        else if (nat_of_ascii c =? 43)%nat then (false, s')
        else (false, s)
    | [] => (false, s)
    end in
  let s := skip_prefix base s in
  match s with
  | c :: _ => if is_underscore c then None else
      match scan_digits base 0 false false s with
      | Some (n, rest) =>
          if forallb is_space rest then Some (if neg then - n else n) else None
      | None => None
      end
  | [] => None
  end.

(** [int(s, base)]; [int(s)] is [py_int 10 s]. *)
Definition py_int (base : Z) (s : string) : res Z :=
  match parse_int base (list_ascii_of_string s) with
  | Some n => Ret n
  | None => Raise ValueError
  end.

(** [str(n)] and [f"{n}"] for an int. *)
Definition py_str (n : Z) : string := pretty n.

End Py.
Import Py.

(** ** The record class *)

Module TagType.

Record t : Type := mk {
  type_id : Z;
  version : pyval;
  name : pyval;
  width : pyval;
  height : pyval;
  rotatebuffer : pyval;
  bpp : pyval;
  color_table : pyval;
  short_lut : pyval;
  options : pyval;
  content_ids : pyval;
  template : pyval;
  use_template : pyval;
  zlib_compression : pyval;
  _raw_data : dict
}.

Definition default_color_table : pyval :=
  PDict [ ("white", PList [PInt 255; PInt 255; PInt 255]);
          ("black", PList [PInt 0; PInt 0; PInt 0]);
          ("red", PList [PInt 255; PInt 0; PInt 0]) ].

Definition unknown_type (type_id : Z) : string :=
  "Unknown Type " +:+ py_str type_id.

(** [TagType(type_id, data)] *)
Definition __init__ (type_id : Z) (data : dict) : t :=
  {| type_id := type_id;
     version := dict_get data "version" (PInt 1);
     name := dict_get data "name" (PStr (unknown_type type_id));
     width := dict_get data "width" (PInt 296);
     height := dict_get data "height" (PInt 128);
     rotatebuffer := dict_get data "rotatebuffer" (PInt 0);
     bpp := dict_get data "bpp" (PInt 2);
     color_table := dict_get data "colortable" default_color_table;
     short_lut := dict_get data "shortlut" (PInt 2);
     options := dict_get data "options" (PList []);
     content_ids := dict_get data "contentids" (PList []);
     template := dict_get data "template" (PDict []);
     use_template := dict_get data "usetemplate" PNone;
     zlib_compression := dict_get data "zlib_compression" PNone;
     _raw_data := data |}.

(** [self.to_dict()]: [list(...)] raises on an object that is not iterable. *)
Definition to_dict (self : t) : res dict :=
  opts ← py_list (options self);
  cids ← py_list (content_ids self);
  mret [ ("version", version self);
         ("name", name self);
         ("width", width self);
         ("height", height self);
         ("rotatebuffer", rotatebuffer self);
         ("bpp", bpp self);
         ("colortable", color_table self);
         ("shortlut", short_lut self);
         ("options", opts);
         ("contentids", cids);
         ("template", template self);
         ("usetemplate", use_template self);
         ("zlib_compression", zlib_compression self) ].

(** [TagType.from_dict(type_id, data)] *)
Definition from_dict (type_id : Z) (data : dict) : t :=
  let raw_data : dict :=
    [ ("version", dict_get data "version" (PInt 1));
      ("name", dict_get data "name" PNone);
      ("width", dict_get data "width" PNone);
      ("height", dict_get data "height" PNone);
      ("rotatebuffer", dict_get data "rotatebuffer" PNone);
      ("bpp", dict_get data "bpp" PNone);
      ("shortlut", dict_get data "short_lut" (dict_get data "shortlut" PNone));
      ("colortable", dict_get data "colortable" PNone);
      ("options", dict_get data "options" (PList []));
      ("contentids",
        dict_get data "contentids" (dict_get data "content_ids" (PList [])));
      ("template", dict_get data "template" (PDict []));
      ("usetemplate", dict_get data "usetemplate" PNone);
      ("zlib_compression", dict_get data "zlib_compression" PNone) ] in
  __init__ type_id raw_data.

(** What [getattr] can find on an instance: a value set by [__init__], or
    one of the methods of the class.  (The attributes every object inherits,
    such as [__class__], are not modelled.) *)
Inductive attribute : Type :=
| Value (v : pyval)
| Method (m : string).

(** The instance attributes, by name. *)
Definition field (self : t) (attr : string) : option pyval :=
  if String.eqb attr "type_id" then Some (PInt (type_id self))
  else if String.eqb attr "version" then Some (version self)
  else if String.eqb attr "name" then Some (name self)
  else if String.eqb attr "width" then Some (width self)
  else if String.eqb attr "height" then Some (height self)
  else if String.eqb attr "rotatebuffer" then Some (rotatebuffer self)
  else if String.eqb attr "bpp" then Some (bpp self)
  else if String.eqb attr "color_table" then Some (color_table self)
  else if String.eqb attr "short_lut" then Some (short_lut self)
  else if String.eqb attr "options" then Some (options self)
  else if String.eqb attr "content_ids" then Some (content_ids self)
  else if String.eqb attr "template" then Some (template self)
  else if String.eqb attr "use_template" then Some (use_template self)
  else if String.eqb attr "zlib_compression" then Some (zlib_compression self)
  else if String.eqb attr "_raw_data" then Some (PDict (_raw_data self))
  else None.


Definition method_names : list string :=
  [ "__init__"; "to_dict"; "from_dict"; "get" ].

(** [self.get(attr, default)], that is [getattr(self, attr, default)] *)
Definition get (self : t) (attr : string) (default : pyval) : attribute :=
  match field self attr with
  | Some v => Value v
  | None =>
      if existsb (String.eqb attr) method_names then Method attr
      else Value default
  end.

End TagType.

(** ** The cache manager *)

Module TagTypesManager.

(** [timedelta(hours=48)], in microseconds, the resolution of [datetime]. *)
Definition CACHE_DURATION : Z := 48 * 3600 * 1000000.
Definition STORAGE_VERSION : Z := 1.

(** The fields of a manager that the methods mutate: the table and the
    freshness timestamp (a [datetime], counted in microseconds). *)
Record t : Type := mk {
  _tag_types : gmap Z TagType.t;
  _last_update : option Z
}.

(** [TagTypesManager(hass)] *)
Definition __init__ : t := {| _tag_types := ∅; _last_update := None |}.

(** *** The outside world *)

(** What an HTTP GET gives: no answer at all (aiohttp raises), or a status
    with the body decoded as JSON ([response.json()], or [json.loads] of
    [response.text()], which raise on a body that is not JSON). *)
Inductive http_response : Type :=
| Unreachable
| Response (status : Z) (json : res pyval).

(** How the collaborators behave during a run.  The [k]-th call of
    [datetime.now()] reads [clock k]; the [k]-th refresh gets
    [get_directory k] for the listing and [get_file k url] for a file.
    [isoformat] and [fromisoformat] are those of [datetime], on naive
    timestamps.  The five flags tell which storage calls raise. *)
Record env : Type := {
  clock : nat → Z;
  isoformat : Z → string;
  fromisoformat : string → res Z;
  get_directory : nat → http_response;
  get_file : nat → pyval → http_response;
  load_fails : bool;
  legacy_load_fails : bool;
  save_fails : bool;
  remove_store_fails : bool;
  remove_file_fails : bool
}.

(** The calls that leave the process. *)
Inductive event : Type :=
| LoadStore
| LoadLegacyStore
| SaveStore (data : dict)
| RemoveLegacyStore
| CleanupLegacyFile
| FetchDirectory.

(** What lives outside the manager: the blob under [STORAGE_KEY] and the
    blob under [LEGACY_STORAGE_KEY] (each a [dict[str, Any] | None], as the
    source types what [async_load] returns), whether the legacy file exists,
    how often the clock was read, how many refreshes were started, and the
    calls made so far (latest last). *)
Record world : Type := {
  store : option dict;
  legacy_store : option dict;
  legacy_file : bool;
  ticks : nat;
  refreshes : nat;
  trace : list event
}.

Definition state : Type := t * world.

(** A method body: it runs on the manager and the world, changes them, and
    returns or raises; what it changed before raising stays changed. *)
Definition M (A : Type) : Type := state → res A * state.

#[global] Instance M_ret : MRet M := fun _ a s => (Ret a, s).
#[global] Instance M_bind : MBind M := fun _ _ f c s =>
  match c s with
  | (Ret a, s') => f a s'
  | (Raise e, s') => (Raise e, s')
  end.

Definition raise {A} (e : exn) : M A := fun s => (Raise e, s).

Definition lift {A} (r : res A) : M A := fun s => (r, s).

(** [try: body except <catches>: handler] *)
Definition try_except {A} (body : M A) (catches : exn → bool) (handler : M A)
  : M A := fun s =>
  match body s with
  | (Ret a, s') => (Ret a, s')
  | (Raise e, s') => if catches e then handler s' else (Raise e, s')
  end.

(** The [except] clauses of the module. *)
Definition Exception (e : exn) : bool := true.
Definition ValueError_ (e : exn) : bool :=
  match e with ValueError | JSONDecodeError => true | _ => false end.
Definition TypeError_or_ValueError (e : exn) : bool :=
  match e with TypeError | ValueError | JSONDecodeError => true | _ => false end.
Definition JSONDecodeError_ (e : exn) : bool :=
  match e with JSONDecodeError => true | _ => false end.
Definition OSError_ (e : exn) : bool :=
  match e with OSError => true | _ => false end.

Definition self : M t := fun s => (Ret (fst s), s).
Definition the_world : M world := fun s => (Ret (snd s), s).

Definition set_tag_types (tbl : gmap Z TagType.t) : M unit := fun '(m, w) =>
  (Ret tt, ({| _tag_types := tbl; _last_update := _last_update m |}, w)).

Definition set_last_update (ts : Z) : M unit := fun '(m, w) =>
  (Ret tt, ({| _tag_types := _tag_types m; _last_update := Some ts |}, w)).

Definition emit (ev : event) : M unit := fun '(m, w) =>
  (Ret tt, (m, {| store := store w; legacy_store := legacy_store w;
                  legacy_file := legacy_file w; ticks := ticks w;
                  refreshes := refreshes w; trace := trace w ++ [ev] |})).

(** [datetime.now()] *)
Definition now (E : env) : M Z := fun '(m, w) =>
  (Ret (clock E (ticks w)),
   (m, {| store := store w; legacy_store := legacy_store w;
          legacy_file := legacy_file w; ticks := S (ticks w);
          refreshes := refreshes w; trace := trace w |})).

(** [self._store.async_load()] *)
Definition store_async_load (E : env) : M (option dict) :=
  emit LoadStore;;
  if load_fails E then raise OSError
  else w ← the_world; mret (store w).

(** [self._legacy_store.async_load()] *)
Definition legacy_store_async_load (E : env) : M (option dict) :=
  emit LoadLegacyStore;;
  if legacy_load_fails E then raise OSError
  else w ← the_world; mret (legacy_store w).

(** [self._store.async_save(data)] *)
Definition store_async_save (E : env) (data : dict) : M unit :=
  emit (SaveStore data);;
  if save_fails E then raise OSError
  else fun '(m, w) =>
    (Ret tt, (m, {| store := Some data; legacy_store := legacy_store w;
                    legacy_file := legacy_file w; ticks := ticks w;
                    refreshes := refreshes w; trace := trace w |})).

(** [storage.async_remove_store(self._hass, LEGACY_STORAGE_KEY)] *)
Definition async_remove_store (E : env) : M unit :=
  emit RemoveLegacyStore;;
  if remove_store_fails E then raise OSError
  else fun '(m, w) =>
    (Ret tt, (m, {| store := store w; legacy_store := None;
                    legacy_file := legacy_file w; ticks := ticks w;
                    refreshes := refreshes w; trace := trace w |})).

(** The executor job [_remove]: [os.remove] when [os.path.exists]. *)
Definition _remove (E : env) : M bool := fun '(m, w) =>
  if legacy_file w then
    if remove_file_fails E then (Raise OSError, (m, w))
    else (Ret true,
          (m, {| store := store w; legacy_store := legacy_store w;
                 legacy_file := false; ticks := ticks w;
                 refreshes := refreshes w; trace := trace w |}))
  else (Ret false, (m, w)).

(** The start of a refresh: its number, for the network's answers. *)
Definition begin_refresh : M nat := fun '(m, w) =>
  (Ret (refreshes w),
   (m, {| store := store w; legacy_store := legacy_store w;
          legacy_file := legacy_file w; ticks := ticks w;
          refreshes := S (refreshes w);
          trace := trace w ++ [FetchDirectory] |})).

(** *** Saving and loading the table *)

(** A dict built by assigning [d[k] = v] for the pairs in order: a later
    pair replaces an earlier one with the same key. *)
Definition build_table (l : list (Z * TagType.t)) : gmap Z TagType.t :=
  foldl (fun tbl '(k, v) => <[k := v]> tbl) ∅ l.

(** [{str(type_id): tag_type.to_dict() for type_id, tag_type in
    self._tag_types.items()}].  The items come in the order of
    [map_to_list]; a JSON object does not depend on it. *)
Definition serialise (tbl : gmap Z TagType.t) : res dict :=
  mapM (fun '(type_id, tag_type) =>
          d ← TagType.to_dict tag_type; mret (py_str type_id, PDict d))
       (map_to_list tbl).

Definition _save_to_store (E : env) : M unit :=
  m ← self;
  last_update ←
    match _last_update m with
    | Some ts => mret ts
    | None => ts ← now E; set_last_update ts;; mret ts
    end;
  m ← self;
  tag_types ← lift (serialise (_tag_types m));
  let data : dict :=
    [ ("version", PInt STORAGE_VERSION);
      ("last_update", PStr (isoformat E last_update));
      ("tag_types", PDict tag_types) ] in
  try_except (store_async_save E data) Exception (mret tt).

(** [datetime.fromisoformat(v)] *)
Definition py_fromisoformat (E : env) (v : pyval) : res Z :=
  match v with
  | PStr s => fromisoformat E s
  | _ => Raise TypeError
  end.

(** [v.items()] *)
Definition py_items (v : pyval) : res (list (string * pyval)) :=
  match v with
  | PDict d => Ret ((fun k => (k, dict_get d k PNone)) <$> dict_keys d)
  | _ => Raise AttributeError
  end.

(** One round of the loop of [_load_from_payload]: an item whose key is not
    a decimal number or whose value is not a dict is logged and skipped. *)
Definition load_item (tbl : gmap Z TagType.t) (item : string * pyval)
  : gmap Z TagType.t :=
  let '(type_id_str, type_data) := item in
  match py_int 10 type_id_str with
  | Ret type_id =>
      match type_data with
      | PDict d => <[type_id := TagType.from_dict type_id d]> tbl
      | _ => tbl
      end
  | Raise _ => tbl
  end.

Definition _load_from_payload (E : env) (stored_data : dict) : M unit :=
  try_except
    (let last_update := dict_get stored_data "last_update" PNone in
     ts ← (if truthy last_update then lift (py_fromisoformat E last_update)
           else now E);
     set_last_update ts)
    TypeError_or_ValueError
    (ts ← now E; set_last_update ts);;
  set_tag_types ∅;;
  items ← lift (py_items (dict_get stored_data "tag_types" (PDict [])));
  m ← self;
  set_tag_types (foldl load_item (_tag_types m) items).

Definition _cleanup_legacy_file (E : env) : M unit :=
  emit CleanupLegacyFile;;
  try_except (_remove E;; mret tt) OSError_ (mret tt).

(** *** The static fallback set *)

(** The double quote, for the inch sign in the model names. *)
Definition dq : string := String "034"%char "".

Definition fallback (type_id version : Z) (name : string) (width height : Z)
  : Z * dict :=
  (type_id, [ ("version", PInt version); ("name", PStr name);
              ("width", PInt width); ("height", PInt height) ]).

Definition fallback_definitions : list (Z * dict) := [
    fallback 0 4 ("M2 1.54" +:+ dq) 152 152;
    fallback 1 5 ("M2 2.9" +:+ dq) 296 128;
    fallback 2 5 ("M2 4.2" +:+ dq) 400 300;
    fallback 3 6 ("M2 2.2" +:+ dq) 212 104;
    fallback 4 4 ("M2 2.6" +:+ dq) 296 152;
    fallback 5 4 ("M2 7.4" +:+ dq) 640 384;
    fallback 6 4 ("Opticon 2.2" +:+ dq) 250 128;
    fallback 7 4 ("Opticon 2.9" +:+ dq) 296 128;
    fallback 8 2 ("Opticon 4.2" +:+ dq) 400 300;
    fallback 9 2 ("Opticon 7.5" +:+ dq) 640 384;
    fallback 17 3 ("M2 2.9" +:+ dq +:+ " (UC8151)") 296 128;
    fallback 18 3 ("M2 4.2" +:+ dq +:+ " UC") 400 300;
    fallback 33 2 ("ST‐GM29XXF 2.9" +:+ dq) 296 128;
    fallback 34 2 ("M2 2.7" +:+ dq) 264 176;
    fallback 38 1 ("M2 7.5" +:+ dq +:+ " BW") 640 384;
    fallback 39 3 ("ST‐GM29MT1 2.9" +:+ dq) 296 128;
    fallback 40 2 ("M3 1.6" +:+ dq +:+ " BWRY") 168 168;
    fallback 41 1 ("M3 2.4" +:+ dq +:+ " BWRY") 296 168;
    fallback 42 1 ("M3 3.0" +:+ dq +:+ " BWRY") 400 168;
    fallback 43 1 ("M3 2.9" +:+ dq +:+ " BWRY") 384 168;
    fallback 44 1 ("M3 4.3" +:+ dq +:+ " BWRY") 522 152;
    fallback 45 2 ("M3 12.2" +:+ dq) 960 768;
    fallback 46 5 ("M3 9.7" +:+ dq) 960 672;
    fallback 47 4 ("M3 4.3" +:+ dq) 522 152;
    fallback 48 2 ("M3 1.6" +:+ dq) 200 200;
    fallback 49 1 ("M3 2.2" +:+ dq) 296 160;
    fallback 50 1 ("M3 2.6" +:+ dq) 360 184;
    fallback 51 3 ("M3 2.9" +:+ dq) 384 168;
    fallback 52 2 ("M3 4.2" +:+ dq) 400 300;
    fallback 53 2 ("M3 6.0" +:+ dq) 600 448;
    fallback 54 5 ("M3 7.5" +:+ dq) 800 480;
    fallback 55 3 ("M3 11.6" +:+ dq) 960 640;
    fallback 60 3 ("M3 4.2" +:+ dq +:+ " BWY") 400 300;
    fallback 64 1 ("M3 2.9" +:+ dq +:+ " BW") 384 168;
    fallback 65 1 ("M3 5.85" +:+ dq) 792 272;
    fallback 66 1 ("M3 5.85" +:+ dq +:+ " BW") 792 272;
    fallback 67 2 ("M3 1.3" +:+ dq +:+ " Peghook") 144 200;
    fallback 68 2 ("M3 5.81" +:+ dq +:+ " BW") 720 256;
    fallback 69 3 ("M3 2.2 Lite" +:+ dq) 250 128;
    fallback 70 1 ("M3 2.2" +:+ dq +:+ " BW") 296 160;
    fallback 71 4 ("M3 2.7" +:+ dq) 300 200;
    fallback 72 1 ("M3 5.81" +:+ dq +:+ " BWR") 720 256;
    fallback 73 2 ("M3 5.81" +:+ dq +:+ " V2 BWR") 720 256;
    fallback 74 1 ("M3 1.6" +:+ dq +:+ " 200px BWRY") 200 200;
    fallback 75 1 ("M3 2.2" +:+ dq +:+ " BWRY") 296 160;
    fallback 76 1 ("M3 7.5" +:+ dq +:+ " BWRY") 800 480;
    fallback 77 3 ("M3 11.6" +:+ dq +:+ " BWRY") 960 640;
    fallback 78 2 ("M3 2.6" +:+ dq +:+ " BW") 360 184;
    fallback 80 2 ("HD150 5.83" +:+ dq +:+ " BWR") 648 480;
    fallback 84 4 ("HS BW 2.13" +:+ dq) 256 128;
    fallback 85 5 ("HS BWR 2.13" +:+ dq) 256 128;
    fallback 86 6 ("HS BWR 2.66" +:+ dq) 296 152;
    fallback 87 3 ("TLSR BWR 1.54" +:+ dq) 200 200;
    fallback 88 3 ("TLSR BW 2.13" +:+ dq) 256 128;
    fallback 89 3 ("TLSR BWR 2.13" +:+ dq) 264 136;
    fallback 90 1 ("HS BW 2.13" +:+ dq +:+ " LowRes") 212 104;
    fallback 96 6 ("HS BWY 3.5" +:+ dq) 384 184;
    fallback 97 4 ("HS BWR 3.5" +:+ dq) 384 184;
    fallback 98 4 ("HS BW 3.5" +:+ dq) 384 184;
    fallback 99 6 ("TLSR BWR 4.2" +:+ dq) 400 300;
    fallback 102 2 ("HS BWY 7,5" +:+ dq) 800 480;
    fallback 103 3 ("HS 2.00" +:+ dq +:+ " BWY") 152 200;
    fallback 104 4 ("HS BWY 3.46" +:+ dq) 480 176;
    fallback 105 4 ("TLSR BW 2.13" +:+ dq) 250 136;
    fallback 106 1 ("HS BWR 5,83" +:+ dq) 648 480;
    fallback 107 3 ("HS BWRY 7,5" +:+ dq) 800 480;
    fallback 108 3 ("HS BWRY 2,00" +:+ dq) 152 200;
    fallback 109 3 ("HS BWRY 3,5" +:+ dq) 384 184;
    fallback 110 3 ("HS BWRY 2,9" +:+ dq) 296 128;
    fallback 111 2 ("HS BWRY 2,60" +:+ dq) 296 152;
    fallback 128 1 ("Chroma 7.4" +:+ dq) 640 384;
    fallback 129 2 ("Chroma Aeon 74 7.4" +:+ dq) 800 480;
    fallback 130 2 ("Chroma29 2.9" +:+ dq) 296 128;
    fallback 131 2 ("Chroma42 4.2" +:+ dq) 400 300;
    fallback 176 5 ("Gicisky BLE EPD BW 2.13" +:+ dq) 250 128;
    fallback 177 5 ("Gicisky BLE EPD BWR 2.13" +:+ dq) 250 128;
    fallback 178 2 ("Gicisky BLE EPD BW 2.9" +:+ dq) 296 128;
    fallback 179 2 ("Gicisky BLE EPD BWR 2.9" +:+ dq) 296 128;
    fallback 181 2 ("Gicisky BLE EPD BWR 4.2" +:+ dq) 400 300;
    fallback 186 5 ("Gicisky BLE TFT 2.13" +:+ dq) 250 136;
    fallback 189 2 ("BLE EPD BWR 2.9" +:+ dq +:+ " Silabs") 384 168;
    fallback 190 1 ("ATC MiThermometer BLE") 6 8;
    fallback 192 2 ("BWRY example") 360 184;
    fallback 193 1 ("ACeP 4.01") 640 400;
    fallback 194 1 ("Spectra 7.3") 800 480;
    fallback 224 2 ("TFT 320x172") 320 172;
    fallback 225 2 ("TFT 160x80") 160 80;
    fallback 226 1 ("LILYGO TPANEL 4" +:+ dq) 480 480;
    fallback 227 1 ("GDEM1085Z51 10.85" +:+ dq) 1360 480;
    fallback 228 1 ("BLE TFT 128x128") 128 128;
    fallback 229 1 ("TFT 240x320") 320 172;
    fallback 240 2 ("SLT‐EM007 Segmented") 0 0;
    fallback 250 1 ("ConfigMode") 0 0 ].

Definition fallback_types : gmap Z TagType.t :=
  build_table
    ((fun '(type_id, data) => (type_id, TagType.__init__ type_id data))
       <$> fallback_definitions).

Definition _load_fallback_types (E : env) : M unit :=
  set_tag_types fallback_types;;
  ts ← now E;
  set_last_update ts.

(** *** Refresh from the remote source *)

Definition required_fields : list string :=
  [ "version"; "name"; "width"; "height" ].

(** [all(field in data for field in fields)] *)
Fixpoint all_in (fields : list string) (data : pyval) : res bool :=
  match fields with
  | [] => Ret true
  | field :: fields' =>
      b ← py_in field data;
      if b : bool then all_in fields' data else Ret false
  end.

Definition _validate_tag_definition (data : pyval) : res bool :=
  all_in required_fields data.

(** [try: body except <catches>: handler], for code that touches no state. *)
Definition res_try {A} (body : res A) (catches : exn → bool) (handler : res A)
  : res A :=
  match body with
  | Ret a => Ret a
  | Raise e => if catches e then handler else Raise e
  end.

(** What the listing loop does with one item of the directory. *)
Inductive item_outcome : Type :=
| Candidate (type_id : Z) (download_url : pyval)
| Warned
| Ignored.

(** The body of the loop for an item whose name ends in [.json]: the hex
    attempt, then the decimal attempt, then the warning; an exception other
    than [ValueError] goes to the enclosing [except Exception], which warns
    as well. *)
Definition parse_filename (item : pyval) (name : string) : res item_outcome :=
  res_try
    (let base_name := drop_last 5 name in
     res_try
       (type_id ← py_int 16 base_name;
        url ← py_getitem item "download_url";
        mret (Candidate type_id url))
       ValueError_
       (res_try
          (type_id ← py_int 10 base_name;
           url ← py_getitem item "download_url";
           mret (Candidate type_id url))
          ValueError_
          (mret Warned)))
    Exception
    (mret Warned).

(** One round of [for item in directory_contents]: the test
    [item["name"].endswith(".json")] stands outside the inner [try]. *)
Definition process_item (item : pyval) : res item_outcome :=
  nm ← py_getitem item "name";
  match nm with
  | PStr name =>
      if endswith name ".json" then parse_filename item name else mret Ignored
  | _ => Raise AttributeError
  end.

Definition candidate_of (o : item_outcome) : option (Z * pyval) :=
  match o with
  | Candidate type_id url => Some (type_id, url)
  | Warned | Ignored => None
  end.

(** The list [type_files] after the listing loop. *)
Definition list_type_files (directory_contents : pyval)
  : res (list (Z * pyval)) :=
  items ← py_iter directory_contents;
  outcomes ← mapM process_item items;
  mret (omap candidate_of outcomes).

(** [TagType(hw_type, data)] on a decoded body: [data.get] exists on a dict
    only. *)
Definition construct (hw_type : Z) (data : pyval) : res TagType.t :=
  match data with
  | PDict d => Ret (TagType.__init__ hw_type d)
  | _ => Raise AttributeError
  end.

(** The body of [for hw_type, url in type_files], up to the assignment:
    the record to install, if there is one. *)
Definition fetch_definition (E : env) (k : nat) (hw_type : Z) (url : pyval)
  : res (option TagType.t) :=
  res_try
    (match get_file E k url with
     | Unreachable => Raise NetworkError
     | Response status json =>
         if status =? 200 then
           res_try
             (data ← json;
              valid ← _validate_tag_definition data;
              if valid : bool then
                tag_type ← construct hw_type data; mret (Some tag_type)
              else mret None)
             JSONDecodeError_
             (mret None)
         else mret None
     end)
    Exception
    (mret None).

Definition download_entry (E : env) (k : nat) (new_types : gmap Z TagType.t)
  (file : Z * pyval) : gmap Z TagType.t :=
  let '(hw_type, url) := file in
  match fetch_definition E k hw_type url with
  | Ret (Some tag_type) => <[hw_type := tag_type]> new_types
  | _ => new_types
  end.

(** The directory listing: a status other than 200 raises. *)
Definition directory_contents (E : env) (k : nat) : res pyval :=
  match get_directory E k with
  | Unreachable => Raise NetworkError
  | Response status json =>
      if status =? 200 then json else Raise NetworkError
  end.

(** The mapping [new_types] a refresh assembles from the network. *)
Definition assemble (E : env) (k : nat) : res (gmap Z TagType.t) :=
  contents ← directory_contents E k;
  type_files ← list_type_files contents;
  mret (foldl (download_entry E k) ∅ type_files).

(** [not tbl] for a table *)
Definition is_empty (tbl : gmap Z TagType.t) : bool := (size tbl =? 0)%nat.

Definition _fetch_tag_types (E : env) : M bool :=
  try_except
    (k ← begin_refresh;
     new_types ← lift (assemble E k);
     if is_empty new_types then mret false
     else
       set_tag_types new_types;;
       ts ← now E;
       set_last_update ts;;
       _save_to_store E;;
       mret true)
    Exception
    (mret false).

(** *** Loading *)

(** [if data and data.get("version") == STORAGE_VERSION] *)
Definition usable (data : option dict) : option dict :=
  match data with
  | Some d =>
      if truthy (PDict d)
         && eq_int (dict_get d "version" PNone) STORAGE_VERSION
      then Some d else None
  | None => None
  end.

Definition present (data : option dict) : bool :=
  match data with Some d => truthy (PDict d) | None => false end.

Definition load_stored_data (E : env) : M unit :=
  stored_data ← try_except (store_async_load E) Exception (mret None);
  match usable stored_data with
  | Some d => _load_from_payload E d
  | None =>
      migrated ←
        (if present stored_data then mret false
         else
           legacy_data ←
             try_except (legacy_store_async_load E) Exception (mret None);
           match usable legacy_data with
           | Some d =>
               _load_from_payload E d;;
               _save_to_store E;;
               try_except (async_remove_store E) Exception (mret tt);;
               mret true
           | None => mret false
           end);
      if migrated : bool then mret tt
      else
        fetch_success ← _fetch_tag_types E;
        if fetch_success : bool then _cleanup_legacy_file E
        else
          m ← self;
          (if is_empty (_tag_types m) then _load_fallback_types E
           else mret tt);;
          _cleanup_legacy_file E
  end.

(** [now - last_update > CACHE_DURATION] *)
Definition older_than_cache_duration (now_ last_update : Z) : bool :=
  CACHE_DURATION <? now_ - last_update.

(** The body runs under [self._lock]; a single caller is modelled, for
    which the lock is transparent. *)
Definition ensure_types_loaded (E : env) : M unit :=
  m ← self;
  (if is_empty (_tag_types m) then load_stored_data E else mret tt);;
  m ← self;
  (if is_empty (_tag_types m) then _load_fallback_types E else mret tt);;
  m ← self;
  expired ←
    match _last_update m with
    | None => mret true
    | Some last_update =>
        ts ← now E; mret (older_than_cache_duration ts last_update)
    end;
  if expired : bool then _fetch_tag_types E;; mret tt else mret tt.

(** *** Lookups *)

Definition get_tag_info (E : env) (hw_type : Z) : M TagType.t :=
  ensure_types_loaded E;;
  m ← self;
  match _tag_types m !! hw_type with
  | Some tag_def => mret tag_def
  | None => raise KeyError
  end.

Definition get_hw_dimensions (m : t) (hw_type : Z) : pyval * pyval :=
  match _tag_types m !! hw_type with
  | None => (PInt 296, PInt 128)
  | Some tag_type => (TagType.width tag_type, TagType.height tag_type)
  end.

Definition get_hw_string (m : t) (hw_type : Z) : TagType.attribute :=
  match _tag_types m !! hw_type with
  | None => TagType.Value (PStr (TagType.unknown_type hw_type))
  | Some tag_type =>
      TagType.get tag_type "name" (PStr (TagType.unknown_type hw_type))
  end.

Definition is_in_hw_map (m : t) (hw_type : Z) : bool :=
  bool_decide (is_Some (_tag_types m !! hw_type)).

Definition get_all_types (m : t) : gmap Z TagType.t := _tag_types m.

End TagTypesManager.

(** ** Properties of the record class *)

Module Properties.

(** Two records agree on the fields the storage form holds. *)
Definition storage_fields_agree (a b : TagType.t) : Prop :=
  TagType.version a = TagType.version b ∧
  TagType.name a = TagType.name b ∧
  TagType.width a = TagType.width b ∧
  TagType.height a = TagType.height b ∧
  TagType.rotatebuffer a = TagType.rotatebuffer b ∧
  TagType.bpp a = TagType.bpp b ∧
  TagType.color_table a = TagType.color_table b ∧
  TagType.short_lut a = TagType.short_lut b ∧
  TagType.options a = TagType.options b ∧
  TagType.content_ids a = TagType.content_ids b ∧
  TagType.template a = TagType.template b ∧
  TagType.use_template a = TagType.use_template b ∧
  TagType.zlib_compression a = TagType.zlib_compression b.

(** [TagType.from_dict(r.type_id, r.to_dict())] is built and agrees with
    [r]. *)
Definition round_trip (r : TagType.t) : Prop :=
  ∃ d, TagType.to_dict r = Ret d ∧
       storage_fields_agree (TagType.from_dict (TagType.type_id r) d) r.

(** The documented defaults of the constructor. *)
Definition has_documented_defaults (r : TagType.t) : Prop :=
  TagType.version r = PInt 1 ∧
  TagType.name r = PStr (TagType.unknown_type (TagType.type_id r)) ∧
  TagType.width r = PInt 296 ∧
  TagType.height r = PInt 128 ∧
  TagType.rotatebuffer r = PInt 0 ∧
  TagType.bpp r = PInt 2 ∧
  TagType.color_table r = TagType.default_color_table ∧
  TagType.short_lut r = PInt 2 ∧
  TagType.options r = PList [] ∧
  TagType.content_ids r = PList [] ∧
  TagType.template r = PDict [] ∧
  TagType.use_template r = PNone ∧
  TagType.zlib_compression r = PNone.



(** A definition as the remote source may deliver it: the four required
    keys are there, and [options] is a string. *)
Definition wire_with_string_options : dict :=
  [ ("version", PInt 1); ("name", PStr "Demo"); ("width", PInt 296);
    ("height", PInt 128); ("options", PStr "ab") ].

End Properties.
Import Properties.


(** ** Properties of the manager *)

Module Scenarios.
Import TagTypesManager.

(** A refresh assembles nothing: the listing fails, or no file yields a
    record. *)
Definition assembles_nothing (E : env) (k : nat) : Prop :=
  ∀ tbl, assemble E k = Ret tbl → tbl = ∅.

(** The state a method leaves, and what it returned. *)
Definition manager_after {A} (x : res A * state) : t := x.2.1.
Definition world_after {A} (x : res A * state) : world := x.2.2.
Definition result_of {A} (x : res A * state) : res A := x.1.

Definition is_cleanup (ev : event) : bool :=
  match ev with CleanupLegacyFile => true | _ => false end.

(** How often the removal of the legacy file was attempted. *)
Definition cleanups (w : world) : nat := length (filter is_cleanup (trace w)).

Definition is_fetch (ev : event) : bool :=
  match ev with FetchDirectory => true | _ => false end.

(** How many refreshes were attempted. *)
Definition fetch_attempts (w : world) : nat :=
  length (filter is_fetch (trace w)).

Definition hours (n : Z) : Z := n * 3600 * 1000000.

(** No network, every storage call works, the clock stands at [now_];
    timestamps are written as a count of microseconds. *)
Definition offline (now_ : Z) : env :=
  {| clock := fun _ => now_;
     isoformat := py_str;
     fromisoformat := py_int 10;
     get_directory := fun _ => Unreachable;
     get_file := fun _ _ => Unreachable;
     load_fails := false;
     legacy_load_fails := false;
     save_fails := false;
     remove_store_fails := false;
     remove_file_fails := false |}.

(** Nothing stored, no legacy file. *)
Definition blank : world :=
  {| store := None; legacy_store := None; legacy_file := false;
     ticks := 0; refreshes := 0; trace := [] |}.

(** A populated manager whose timestamp is [last_update]. *)
Definition warm (last_update : Z) : t :=
  {| _tag_types := fallback_types; _last_update := Some last_update |}.

(** What the download loop takes from an answer: the decoded body, when
    the status is 200 and the body is a JSON object with the four required
    keys. *)
Definition accepted (r : http_response) : option dict :=
  match r with
  | Response status (Ret (PDict d)) =>
      if (status =? 200) && forallb (dict_has d) required_fields
      then Some d else None
  | _ => None
  end.

(** Every record of the table can be written by [to_dict]. *)
Definition serialisable (tbl : gmap Z TagType.t) : Prop :=
  map_Forall (fun _ r => is_list (TagType.options r) = true ∧
                         is_list (TagType.content_ids r) = true) tbl.

Definition directory_item (name : string) : pyval :=
  PDict [ ("name", PStr name);
          ("download_url", PStr ("https://raw.example/" +:+ name)) ].

Definition definition (name : string) (extra : dict) : pyval :=
  PDict ([ ("version", PInt 1); ("name", PStr name);
           ("width", PInt 296); ("height", PInt 128) ] ++ extra)%list.

(** A remote source with the given definition files (name and answer); the
    storage works, the clock stands at [now_]. *)
Definition remote (now_ : Z) (files : list (string * http_response)) : env :=
  {| clock := fun _ => now_;
     isoformat := py_str;
     fromisoformat := py_int 10;
     get_directory := fun _ =>
       Response 200 (Ret (PList (directory_item <$> files.*1)));
     get_file := fun _ url =>
       match url with
       | PStr u =>
           match list_find
                   (fun f => String.eqb ("https://raw.example/" +:+ f.1) u = true)
                   files with
           | Some (_, (_, answer)) => answer
           | None => Unreachable
           end
       | _ => Unreachable
       end;
     load_fails := false;
     legacy_load_fails := false;
     save_fails := false;
     remove_store_fails := false;
     remove_file_fails := false |}.

(** Five files, two of them malformed: one is not JSON, one lacks the
    height. *)
Definition five_files : list (string * http_response) :=
  [ ("01.json", Response 200 (Ret (definition "A" [])));
    ("02.json", Response 200 (Raise JSONDecodeError));
    ("03.json", Response 200 (Ret (definition "C" [])));
    ("04.json",
      Response 200 (Ret (PDict [ ("version", PInt 1); ("name", PStr "D");
                                 ("width", PInt 296) ])));
    ("05.json", Response 200 (Ret (definition "E" []))) ].


(** A blob as an older release left it under the legacy key. *)
Definition legacy_blob : dict :=
  [ ("version", PInt 1);
    ("last_update", PStr "1000");
    ("tag_types",
      PDict [ ("1", PDict [ ("version", PInt 5); ("name", PStr "M2 2.9");
                            ("width", PInt 296); ("height", PInt 128);
                            ("shortlut", PInt 1);
                            ("content_ids", PList [PInt 22]) ]) ]) ].

(** Only the legacy blob is stored, and the legacy file is on disk. *)
Definition legacy_only : world :=
  {| store := None; legacy_store := Some legacy_blob; legacy_file := true;
     ticks := 0; refreshes := 0; trace := [] |}.

(** What [async_load] of the two stores hands over. *)
Definition read_store (E : env) (w : world) : option dict :=
  if load_fails E then None else store w.

Definition read_legacy_store (E : env) (w : world) : option dict :=
  if legacy_load_fails E then None else legacy_store w.

End Scenarios.
Import Scenarios.

(** ** The module-level instance *)

Module tag_types.
Import TagTypesManager.

(** A module-level function: it runs on [_INSTANCE] and the world. *)
Definition G (A : Type) : Type :=
  option t * world → res A * (option t * world).

(** [get_tag_types_manager(hass)]: the new manager is bound to [_INSTANCE]
    before it is warmed up, so it stays bound when the warm-up raises. *)
Definition get_tag_types_manager (E : env) : G t := fun '(_INSTANCE, w) =>
  match _INSTANCE with
  | Some m => (Ret m, (Some m, w))
  | None =>
      let '(r, (m, w')) := ensure_types_loaded E (__init__, w) in
      match r with
      | Ret _ => (Ret m, (Some m, w'))
      | Raise e => (Raise e, (Some m, w'))
      end
  end.

(** [reset_tag_types_manager()] *)
Definition reset_tag_types_manager : G unit := fun '(_, w) =>
  (Ret tt, (None, w)).

(** [get_hw_dimensions(hw_type)] *)
Definition get_hw_dimensions (_INSTANCE : option t) (hw_type : Z)
  : pyval * pyval :=
  match _INSTANCE with
  | None => (PInt 296, PInt 128)
  | Some m => TagTypesManager.get_hw_dimensions m hw_type
  end.

(** [get_hw_string(hw_type)] *)
Definition get_hw_string (_INSTANCE : option t) (hw_type : Z)
  : TagType.attribute :=
  match _INSTANCE with
  | None => TagType.Value (PStr (TagType.unknown_type hw_type))
  | Some m => TagTypesManager.get_hw_string m hw_type
  end.

(** [is_in_hw_map(hw_type)] *)
Definition is_in_hw_map (_INSTANCE : option t) (hw_type : Z) : bool :=
  match _INSTANCE with
  | None => false
  | Some m => TagTypesManager.is_in_hw_map m hw_type
  end.

End tag_types.

(** ** Invariants and conditions used below *)

Module Invariants.
Import TagTypesManager.

(** Every record sits under its own ID. *)
Definition keyed (tbl : gmap Z TagType.t) : Prop :=
  map_Forall (fun hw_type r => TagType.type_id r = hw_type) tbl.

(** A populated manager has a timestamp. *)
Definition stamped (m : t) : Prop :=
  _tag_types m ≠ ∅ → is_Some (_last_update m).

(** The tables the methods assign: the empty one, the fallback set, what
    the download loop assembled, what the payload loop loaded. *)
Definition built_table (tbl : gmap Z TagType.t) : Prop :=
  tbl = ∅ ∨ tbl = fallback_types ∨
  (∃ E k type_files, tbl = foldl (download_entry E k) ∅ type_files) ∨
  (∃ items, tbl = foldl load_item ∅ items).

(** How a method may move the manager: a timestamp that is set stays set,
    and the table is kept or replaced by a built one together with a
    timestamp. *)
Definition moves (m m' : t) : Prop :=
  (is_Some (_last_update m) → is_Some (_last_update m')) ∧
  (_tag_types m' = _tag_types m ∨
   (built_table (_tag_types m') ∧ is_Some (_last_update m'))).

Definition steps {A} (c : M A) : Prop :=
  ∀ m w, moves m (manager_after (c (m, w))).

Definition is_decimal_digit (c : ascii) : bool :=
  (48 <=? nat_of_ascii c)%nat && (nat_of_ascii c <=? 57)%nat.

(** [c] makes at most [n] refresh attempts and at most [k] attempts at
    removing the legacy file, whether it returns or raises. *)
Definition within {A} (n k : nat) (c : M A) : Prop :=
  ∀ m w,
    (fetch_attempts (world_after (c (m, w))) ≤ fetch_attempts w + n)%nat ∧
    (cleanups (world_after (c (m, w))) ≤ cleanups w + k)%nat.

(** [iter(v)] does not raise. *)
Definition iterable (v : pyval) : bool :=
  match v with
  | PList _ | PStr _ | PDict _ => true
  | PNone | PBool _ | PInt _ => false
  end.

(** The records of a table as [from_dict] rebuilds them from their storage
    form. *)
Definition reloaded (tbl : gmap Z TagType.t) (hw_type : Z) : option TagType.t :=
  match tbl !! hw_type with
  | Some r =>
      match TagType.to_dict r with
      | Ret d => Some (TagType.from_dict hw_type d)
      | Raise _ => None
      end
  | None => None
  end.

(** [fromisoformat] reads back what [isoformat] writes, which is never the
    empty string. *)
Definition iso_round_trip (E : env) : Prop :=
  ∀ ts, fromisoformat E (isoformat E ts) = Ret ts ∧ isoformat E ts ≠ "".

End Invariants.
Import Invariants.
(** ** Theorems about the record class *)

(** [list(v)] gives [v] back exactly when [v] is a list. *)
Lemma py_list_of_list (v : pyval) :
  is_list v = true → py_list v = Ret v.
Proof. destruct v; simpl; intros H; try discriminate; reflexivity. Qed.

Lemma py_list_fixes_only_lists (v : pyval) :
  py_list v = Ret v → is_list v = true.
Proof. destruct v; simpl; intros H; try discriminate; reflexivity. Qed.

(** C1 (as amended): for every record whose [options] and [content_ids] are
    lists, [to_dict] succeeds and [from_dict] applied to its output with the
    same ID gives a record that agrees with the original on each of the
    thirteen fields of the storage form. *)
Theorem round_trip_of_list_fields (r : TagType.t) :
  is_list (TagType.options r) = true →
  is_list (TagType.content_ids r) = true →
  round_trip r.
Proof.
  intros Ho Hc. unfold round_trip, TagType.to_dict.
  rewrite (py_list_of_list _ Ho), (py_list_of_list _ Hc).
  eexists; split; [reflexivity|].
  unfold storage_fields_agree; repeat split.
Qed.

Lemma round_trip_of_list_fields_witness :
  round_trip (TagType.__init__ 1 [("options", PList [PStr "button"])]).
Proof.
  apply (round_trip_of_list_fields
           (TagType.__init__ 1 [("options", PList [PStr "button"])]));
    reflexivity.
Defined.

(** C1 (as stated) fails: a record built from a wire definition whose
    [options] is the string "ab" comes back with the list of its
    characters. *)
Lemma round_trip_fails_on_string_options :
  ¬ round_trip (TagType.__init__ 1 wire_with_string_options).
Proof.
  intros [d [Hd Hagree]]. vm_compute in Hd. injection Hd as <-.
  destruct Hagree as (_ & _ & _ & _ & _ & _ & _ & _ & Hopt & _).
  vm_compute in Hopt. discriminate Hopt.
Qed.

(** The condition of the amended C1 is the weakest one. *)
Lemma round_trip_only_list_fields (r : TagType.t) :
  round_trip r →
  is_list (TagType.options r) = true ∧ is_list (TagType.content_ids r) = true.
Proof.
  intros [d [Hd Hagree]]. unfold TagType.to_dict in Hd.
  destruct (py_list (TagType.options r)) as [o|] eqn:Ho; [|discriminate].
  destruct (py_list (TagType.content_ids r)) as [c|] eqn:Hc; [|discriminate].
  simpl in Hd. injection Hd as <-.
  destruct Hagree as (_ & _ & _ & _ & _ & _ & _ & _ & Hopt & Hcid & _).
  change (o = TagType.options r) in Hopt.
  change (c = TagType.content_ids r) in Hcid.
  rewrite Hopt in Ho. rewrite Hcid in Hc.
  split; apply py_list_fixes_only_lists; assumption.
Qed.

(** The direct constructor resolves every absent field to its default. *)
Lemma constructor_defaults (type_id : Z) :
  has_documented_defaults (TagType.__init__ type_id []).
Proof. unfold has_documented_defaults; repeat split. Qed.

(** A field absent from the input of the constructor takes its default,
    whatever else the input holds. *)
Lemma constructor_default_per_field (type_id : Z) (data : dict) :
  let r := TagType.__init__ type_id data in
  (lookup_item "version" data = None → TagType.version r = PInt 1) ∧
  (lookup_item "name" data = None →
     TagType.name r = PStr ("Unknown Type " +:+ pretty type_id)) ∧
  (lookup_item "width" data = None → TagType.width r = PInt 296) ∧
  (lookup_item "height" data = None → TagType.height r = PInt 128) ∧
  (lookup_item "rotatebuffer" data = None → TagType.rotatebuffer r = PInt 0) ∧
  (lookup_item "bpp" data = None → TagType.bpp r = PInt 2) ∧
  (lookup_item "colortable" data = None →
     TagType.color_table r = TagType.default_color_table) ∧
  (lookup_item "shortlut" data = None → TagType.short_lut r = PInt 2) ∧
  (lookup_item "options" data = None → TagType.options r = PList []) ∧
  (lookup_item "contentids" data = None → TagType.content_ids r = PList []) ∧
  (lookup_item "template" data = None → TagType.template r = PDict []) ∧
  (lookup_item "usetemplate" data = None → TagType.use_template r = PNone) ∧
  (lookup_item "zlib_compression" data = None →
     TagType.zlib_compression r = PNone).
Proof.
  simpl; unfold dict_get; repeat split; intros ->; reflexivity.
Qed.

(** C4: on the storage path the defaults are lost.  [from_dict] on a blob
    that holds the version only gives [None] for the name, the width, the
    height, the rotation, the colour depth, the colour table and the LUT,
    where the constructor's defaults are "Unknown Type 5", 296, 128, 0, 2,
    the white/black/red table and 2. *)
Theorem from_dict_loses_defaults :
  let r := TagType.from_dict 5 [("version", PInt 1)] in
  TagType.name r = PNone ∧ TagType.width r = PNone ∧
  TagType.height r = PNone ∧ TagType.rotatebuffer r = PNone ∧
  TagType.bpp r = PNone ∧ TagType.color_table r = PNone ∧
  TagType.short_lut r = PNone ∧
  ¬ has_documented_defaults r ∧
  has_documented_defaults (TagType.__init__ 5 [("version", PInt 1)]).
Proof.
  simpl. repeat split; try reflexivity.
  intros (_ & H & _). discriminate H.
Qed.

(** The same for every blob: a key of these seven that is missing from the
    blob reaches the constructor as an explicit [None]. *)
Lemma from_dict_missing_key_is_None (type_id : Z) (data : dict) :
  let r := TagType.from_dict type_id data in
  (lookup_item "name" data = None → TagType.name r = PNone) ∧
  (lookup_item "width" data = None → TagType.width r = PNone) ∧
  (lookup_item "height" data = None → TagType.height r = PNone) ∧
  (lookup_item "rotatebuffer" data = None → TagType.rotatebuffer r = PNone) ∧
  (lookup_item "bpp" data = None → TagType.bpp r = PNone) ∧
  (lookup_item "colortable" data = None → TagType.color_table r = PNone) ∧
  (lookup_item "short_lut" data = None → lookup_item "shortlut" data = None →
     TagType.short_lut r = PNone).
Proof.
  simpl; unfold dict_get; repeat split;
    repeat (let H := fresh in intros H; rewrite H); reflexivity.
Qed.

(** ** The uniform accessor *)




(** ** The dimensions of the records *)





(** Nor does validation of a remote definition look at the values: a
    definition with a negative width is accepted and built. *)
Lemma remote_dimensions_unchecked :
  let d := [ ("version", PInt 1); ("name", PStr "Demo");
             ("width", PInt (-4)); ("height", PStr "tall") ] in
  TagTypesManager._validate_tag_definition (PDict d) = Ret true ∧
  TagType.width (TagType.__init__ 7 d) = PInt (-4) ∧
  TagType.height (TagType.__init__ 7 d) = PStr "tall".
Proof. repeat split. Qed.

(** ** Theorems about the manager *)

Import TagTypesManager.

(** Unfolds the monad and the primitive calls. *)
Ltac run1 :=
  unfold mbind, M_bind, mret, M_ret, try_except, lift, raise, self, the_world,
    set_tag_types, set_last_update, emit, now, begin_refresh,
    store_async_save, store_async_load, legacy_store_async_load,
    async_remove_store, Exception in *;
  cbn [fst snd _tag_types _last_update store legacy_store legacy_file ticks
       refreshes trace] in *.

Ltac run := repeat (progress run1).

Lemma is_empty_true (tbl : gmap Z TagType.t) : is_empty tbl = true ↔ tbl = ∅.
Proof. unfold is_empty. rewrite Nat.eqb_eq. apply map_size_empty_iff. Qed.

Lemma is_empty_false (tbl : gmap Z TagType.t) :
  is_empty tbl = false ↔ tbl ≠ ∅.
Proof.
  rewrite <- is_empty_true.
  destruct (is_empty tbl); split; congruence.
Qed.

Lemma fallback_types_not_empty : fallback_types ≠ ∅.
Proof.
  apply is_empty_false. vm_compute. reflexivity.
Qed.

(** A listing that cannot be had assembles nothing. *)
Lemma unreachable_assembles_nothing (E : env) (k : nat) :
  get_directory E k = Unreachable →
  assembles_nothing E k.
Proof.
  intros H tbl. unfold assemble, directory_contents. rewrite H. discriminate.
Qed.

Lemma bad_status_assembles_nothing (E : env) (k : nat)
    (status : Z) (json : res pyval) :
  get_directory E k = Response status json →
  status ≠ 200 →
  assembles_nothing E k.
Proof.
  intros H Hs tbl. unfold assemble, directory_contents. rewrite H.
  destruct (Z.eqb_spec status 200); [contradiction|discriminate].
Qed.

(** *** Refresh *)

(** C3: whatever the table at the start, a refresh that assembles no
    validated record, or that fails at the level of the batch (listing not
    reachable, bad status, body not parsable, item without a name), returns
    [False] and leaves table, timestamp and store as they were; the table
    and the timestamp change, or the store is written, only when the
    assembled mapping is not empty, and then they become that mapping and
    the time of the refresh. *)
Theorem refresh_atomicity (E : env) (m : t) (w : world)
    (r : res bool) (m' : t) (w' : world) :
  _fetch_tag_types E (m, w) = (r, (m', w')) →
  (assembles_nothing E (refreshes w) →
     r = Ret false ∧ m' = m ∧ store w' = store w) ∧
  (m' ≠ m ∨ store w' ≠ store w →
     ∃ tbl, assemble E (refreshes w) = Ret tbl ∧ tbl ≠ ∅ ∧
            m' = {| _tag_types := tbl;
                    _last_update := Some (clock E (ticks w)) |}).
Proof.
  unfold _fetch_tag_types, assembles_nothing. run.
  destruct (assemble E (refreshes w)) as [tbl|e] eqn:Ha.
  - destruct (is_empty tbl) eqn:Hempty.
    + intros [= <- <- <-]. cbn. split; [auto|]. intros [H|H]; contradiction.
    + apply is_empty_false in Hempty. intros Hrun. split.
      * intros H. destruct Hempty. apply H. reflexivity.
      * intros _. exists tbl. split; [reflexivity|]. split; [assumption|].
        revert Hrun. unfold _save_to_store. run. cbn.
        destruct (serialise tbl); [destruct (save_fails E)|];
          intros [= <- <- <-]; reflexivity.
  - intros [= <- <- <-]. cbn. split; [auto|]. intros [H|H]; contradiction.
Qed.

Lemma refresh_atomicity_witness :
  let x := _fetch_tag_types (offline (hours 49)) (warm 0, blank) in
  result_of x = Ret false ∧ manager_after x = warm 0 ∧
  store (world_after x) = store blank.
Proof.
  refine (proj1 (refresh_atomicity (offline (hours 49)) (warm 0) blank
                   (Ret false) (warm 0)
                   {| store := None; legacy_store := None;
                      legacy_file := false; ticks := 0; refreshes := 1;
                      trace := [FetchDirectory] |}
                   _) _).
  - reflexivity.
  - apply unreachable_assembles_nothing. reflexivity.
Defined.

(** The world once a refresh has been started. *)
Lemma fetch_of_nothing (E : env) (m : t) (w : world) :
  assembles_nothing E (refreshes w) →
  _fetch_tag_types E (m, w) =
    (Ret false,
     (m, {| store := store w; legacy_store := legacy_store w;
            legacy_file := legacy_file w; ticks := ticks w;
            refreshes := S (refreshes w);
            trace := trace w ++ [FetchDirectory] |})).
Proof.
  intros Hnothing. unfold _fetch_tag_types. run.
  destruct (assemble E (refreshes w)) as [tbl|e] eqn:Ha; [|reflexivity].
  rewrite (Hnothing tbl Ha). reflexivity.
Qed.

(** *** Cold start *)

(** C2: with no blob under the current key, none under the legacy key and
    every refresh failing (or assembling nothing), the load protocol run on
    an empty table returns normally with the table equal to the static
    fallback set, which is not empty, and with the timestamp read from the
    clock at that moment. *)
Theorem total_failure_loads_fallback (E : env) (m : t) (w : world) :
  _tag_types m = ∅ →
  store w = None →
  legacy_store w = None →
  (∀ k, assembles_nothing E k) →
  let x := load_stored_data E (m, w) in
  result_of x = Ret tt ∧
  _tag_types (manager_after x) = fallback_types ∧
  fallback_types ≠ ∅ ∧
  _last_update (manager_after x) = Some (clock E (ticks w)).
Proof.
  intros Hm Hs Hl Hnet. destruct m as [tbl lu]. cbn in Hm. subst tbl.
  unfold load_stored_data. run. cbn [trace store legacy_store].
  rewrite Hs, Hl.
  destruct (load_fails E), (legacy_load_fails E); cbn;
    rewrite fetch_of_nothing by apply Hnet; cbn;
    unfold _cleanup_legacy_file, _remove; run; cbn;
    destruct (legacy_file w), (remove_file_fails E); cbn;
    (split; [reflexivity|]; split; [reflexivity|];
     split; [apply fallback_types_not_empty|reflexivity]).
Qed.

Lemma total_failure_loads_fallback_witness :
  let x := load_stored_data (offline (hours 5)) (__init__, blank) in
  result_of x = Ret tt ∧
  _tag_types (manager_after x) = fallback_types ∧
  fallback_types ≠ ∅ ∧
  _last_update (manager_after x) = Some (hours 5).
Proof.
  apply (total_failure_loads_fallback (offline (hours 5)) __init__ blank).
  - reflexivity.
  - reflexivity.
  - reflexivity.
  - intros k. apply unreachable_assembles_nothing. reflexivity.
Defined.

(** The same through [ensure_types_loaded] on a new manager: one refresh is
    attempted, it fails, and the fallback set is served. *)
Lemma cold_start_without_network :
  let x := ensure_types_loaded (offline (hours 5)) (__init__, blank) in
  result_of x = Ret tt ∧
  _tag_types (manager_after x) = fallback_types ∧
  _last_update (manager_after x) = Some (hours 5) ∧
  fetch_attempts (world_after x) = 1%nat.
Proof. vm_compute. repeat split. Qed.

(** *** What a refresh leaves alone *)

Lemma count_snoc (p : event → bool) (tr : list event) (ev : event) :
  length (filter p ((tr ++ [ev])%list))
  = (length (filter p tr) + if p ev then 1 else 0)%nat.
Proof.
  rewrite filter_app, length_app. f_equal.
  rewrite filter_cons, filter_nil. destruct (p ev); reflexivity.
Qed.

(** Reads the fields of an explicit world and counts its events. *)
Ltac world_facts :=
  cbn [trace legacy_file legacy_store store ticks refreshes
       _tag_types _last_update fst snd manager_after world_after result_of];
  rewrite ?count_snoc;
  cbn [is_fetch is_cleanup];
  repeat split; auto; try lia.

(** A refresh returns a boolean, never raises, counts as one attempt, and
    touches neither the legacy store nor the legacy file. *)
Lemma fetch_frame (E : env) (m : t) (w : world) :
  ∃ b m' w',
    _fetch_tag_types E (m, w) = (Ret b, (m', w')) ∧
    fetch_attempts w' = S (fetch_attempts w) ∧
    cleanups w' = cleanups w ∧
    legacy_file w' = legacy_file w ∧
    legacy_store w' = legacy_store w ∧
    (b = false → m' ≠ m → m' = m ∨ _tag_types m' ≠ ∅) ∧
    (_tag_types m ≠ ∅ → _tag_types m' ≠ ∅).
Proof.
  unfold _fetch_tag_types, fetch_attempts, cleanups. run.
  destruct (assemble E (refreshes w)) as [tbl|e] eqn:Ha.
  - destruct (is_empty tbl) eqn:Hempty.
    + do 3 eexists. split; [reflexivity|]. world_facts.
    + apply is_empty_false in Hempty.
      unfold _save_to_store. run. cbn [_last_update _tag_types].
      destruct (serialise tbl) as [d|e].
      * destruct (save_fails E); do 3 eexists; (split; [reflexivity|]);
          world_facts.
      * do 3 eexists. split; [reflexivity|]. world_facts.
  - do 3 eexists. split; [reflexivity|]. world_facts.
Qed.

(** *** Staleness *)



(** 47 hours after the last update: none; exactly 48 hours: none. *)
Lemma no_refresh_within_cache_duration :
  fetch_attempts
    (world_after (ensure_types_loaded (offline (hours 47)) (warm 0, blank)))
  = 0%nat ∧
  fetch_attempts
    (world_after (ensure_types_loaded (offline (hours 48)) (warm 0, blank)))
  = 0%nat ∧
  fetch_attempts
    (world_after (ensure_types_loaded (offline (hours 48 + 1)) (warm 0, blank)))
  = 1%nat.
Proof. repeat split; vm_compute; reflexivity. Qed.

(** A stored table that is 49 hours old: it is loaded from the store, and
    one refresh is attempted. *)
Lemma stale_store_triggers_one_refresh :
  let w := {| store := Some legacy_blob; legacy_store := None;
              legacy_file := false; ticks := 0; refreshes := 0;
              trace := [] |} in
  let x := ensure_types_loaded (offline (1000 + hours 49)) (__init__, w) in
  result_of x = Ret tt ∧ fetch_attempts (world_after x) = 1%nat ∧
  _last_update (manager_after x) = Some 1000.
Proof. vm_compute. repeat split. Qed.

(** *** The listing phase *)

Lemma mapM_res_app {A B} (f : A → res B) (l1 l2 : list A) :
  mapM f (l1 ++ l2)%list =
    match mapM f l1 with
    | Ret xs =>
        match mapM f l2 with
        | Ret ys => Ret (xs ++ ys)%list
        | Raise e => Raise e
        end
    | Raise e => Raise e
    end.
Proof.
  induction l1 as [|x l1 IH]; cbn.
  - destruct (mapM f l2); reflexivity.
  - destruct (f x) as [y|e]; cbn; [|reflexivity].
    rewrite IH. destruct (mapM f l1); cbn; [|reflexivity].
    destruct (mapM f l2); reflexivity.
Qed.


Lemma py_int_raises_ValueError (base : Z) (s : string) (e : exn) :
  py_int base s = Raise e → e = ValueError.
Proof.
  unfold py_int. destruct (parse_int base _); congruence.
Qed.



(** A name that is no number in either base is skipped; the others stay. *)
Lemma unparsable_filename_is_skipped :
  list_type_files
    (PList [ PDict [("name", PStr "0A.json"); ("download_url", PStr "a")];
             PDict [("name", PStr "readme.json"); ("download_url", PStr "b")];
             PDict [("name", PStr "README.md"); ("download_url", PStr "c")];
             PDict [("name", PStr "11.json"); ("download_url", PStr "d")] ])
  = Ret [ (10, PStr "a"); (17, PStr "d") ].
Proof. reflexivity. Qed.

(** *** The decimal attempt *)





(** *** The download phase *)

Lemma all_in_dict (fields : list string) (d : dict) :
  all_in fields (PDict d) = Ret (forallb (dict_has d) fields).
Proof.
  induction fields as [|f fields IH]; [reflexivity|].
  cbn. destruct (dict_has d f); [exact IH|reflexivity].
Qed.

(** One round of the download loop: the record is installed under its ID
    when the answer is accepted, and the mapping is left as it is for every
    other answer (no connection, a status other than 200, a body that is
    not JSON, a JSON value that is not an object, an object without one of
    the four required keys). *)
Lemma download_entry_spec (E : env) (k : nat) (tbl : gmap Z TagType.t)
    (hw_type : Z) (url : pyval) :
  download_entry E k tbl (hw_type, url) =
    match accepted (get_file E k url) with
    | Some d => <[hw_type := TagType.__init__ hw_type d]> tbl
    | None => tbl
    end.
Proof.
  unfold download_entry, fetch_definition, accepted.
  destruct (get_file E k url) as [|status [data|e]]; [reflexivity| |].
  - destruct (Z.eqb_spec status 200) as [->|Hs].
    + destruct data as [| b | n | s | l | d];
        try (cbn [mbind res_bind];
             destruct (_validate_tag_definition _) as [[|]|[]];
             reflexivity).
      cbn [mbind res_bind andb Z.eqb Pos.eqb].
      unfold _validate_tag_definition. rewrite all_in_dict.
      cbn [mbind res_bind].
      destruct (forallb (dict_has d) required_fields); reflexivity.
    + destruct data; reflexivity.
  - destruct (status =? 200); [destruct e|]; reflexivity.
Qed.



Lemma mapM_res_is_ret {A B} (f : A → res B) (l : list A) :
  Forall (fun x => is_ret (f x) = true) l → is_ret (mapM f l) = true.
Proof.
  induction 1 as [|x l Hx _ IH]; [reflexivity|].
  cbn. destruct (f x); [|discriminate]. cbn.
  destruct (mapM f l); [reflexivity|discriminate].
Qed.

(** A table whose records hold lists as options and content IDs can be
    written. *)
Lemma serialisable_serialises (tbl : gmap Z TagType.t) :
  serialisable tbl → is_ret (serialise tbl) = true.
Proof.
  intros Hser. unfold serialise. apply mapM_res_is_ret.
  apply map_Forall_to_list in Hser.
  eapply Forall_impl; [exact Hser|].
  intros [type_id r] [Ho Hc]. cbn in Ho, Hc. unfold TagType.to_dict.
  rewrite (py_list_of_list _ Ho), (py_list_of_list _ Hc). reflexivity.
Qed.

(** A refresh that assembled something installs it, with the time of the
    refresh as timestamp, and reports success exactly when the new table can
    be written for the store. *)
Lemma refresh_installs (E : env) (m : t) (w : world) (tbl : gmap Z TagType.t) :
  assemble E (refreshes w) = Ret tbl →
  tbl ≠ ∅ →
  let x := _fetch_tag_types E (m, w) in
  manager_after x = {| _tag_types := tbl;
                       _last_update := Some (clock E (ticks w)) |} ∧
  result_of x = Ret (is_ret (serialise tbl)).
Proof.
  intros Ha Hne. apply is_empty_false in Hne.
  unfold _fetch_tag_types. run. rewrite Ha, Hne. run.
  unfold _save_to_store. run.
  destruct (serialise tbl); [destruct (save_fails E)|]; split; reflexivity.
Qed.

(** With records that can be written, one valid entry is enough for the
    refresh to install what it assembled and to report success. *)
Lemma refresh_succeeds_when_serialisable (E : env) (m : t) (w : world)
    (tbl : gmap Z TagType.t) :
  assemble E (refreshes w) = Ret tbl →
  tbl ≠ ∅ →
  serialisable tbl →
  let x := _fetch_tag_types E (m, w) in
  _tag_types (manager_after x) = tbl ∧ result_of x = Ret true.
Proof.
  intros Ha Hne Hser.
  destruct (refresh_installs E m w tbl Ha Hne) as [Hm Hr].
  cbv zeta. rewrite Hm, Hr, (serialisable_serialises tbl Hser).
  split; reflexivity.
Qed.

(** Two malformed files out of five: the other three are installed and the
    refresh reports success. *)
Lemma three_of_five_installed :
  let x := _fetch_tag_types (remote 7 five_files) (__init__, blank) in
  result_of x = Ret true ∧
  (map_to_list (_tag_types (manager_after x))).*1 = [5; 3; 1] ∧
  _last_update (manager_after x) = Some 7.
Proof. vm_compute. repeat split. Qed.





(** *** Loading, migration and the legacy file *)

(** Loading a payload reads the clock at most; when it returns, the table
    is the one built from the items of the payload. *)
Lemma load_from_payload_spec (E : env) (d : dict) (m : t) (w : world) :
  ∃ r m' w',
    _load_from_payload E d (m, w) = (r, (m', w')) ∧
    trace w' = trace w ∧ store w' = store w ∧
    legacy_store w' = legacy_store w ∧ legacy_file w' = legacy_file w ∧
    (r = Ret tt →
     ∃ items last_update,
       py_items (dict_get d "tag_types" (PDict [])) = Ret items ∧
       m' = {| _tag_types := foldl load_item ∅ items;
               _last_update := Some last_update |}).
Proof.
  unfold _load_from_payload. run.
  destruct (truthy (dict_get d "last_update" PNone)).
  - run. destruct (py_fromisoformat E (dict_get d "last_update" PNone))
      as [ts|e].
    + destruct (py_items (dict_get d "tag_types" (PDict []))) as [items|e];
        do 3 eexists; (split; [reflexivity|]); repeat split;
        try discriminate; eauto.
    + destruct (TypeError_or_ValueError e).
      * destruct (py_items (dict_get d "tag_types" (PDict []))) as [items|e'];
          do 3 eexists; (split; [reflexivity|]); repeat split;
          try discriminate; eauto.
      * do 3 eexists; (split; [reflexivity|]); repeat split;
          try discriminate.
  - destruct (py_items (dict_get d "tag_types" (PDict []))) as [items|e];
      do 3 eexists; (split; [reflexivity|]); repeat split;
      try discriminate; eauto.
Qed.

(** Saving keeps the table and the legacy artifacts; when it returns and the
    store accepts the write, the store holds the version, the timestamp and
    the records in storage form. *)
Lemma save_to_store_spec (E : env) (m : t) (w : world) :
  ∃ r m' w',
    _save_to_store E (m, w) = (r, (m', w')) ∧
    cleanups w' = cleanups w ∧
    legacy_store w' = legacy_store w ∧ legacy_file w' = legacy_file w ∧
    _tag_types m' = _tag_types m ∧
    (∀ ts, _last_update m = Some ts → _last_update m' = Some ts) ∧
    (r = Ret tt → save_fails E = false →
     ∃ tag_types last_update,
       _last_update m' = Some last_update ∧
       serialise (_tag_types m) = Ret tag_types ∧
       store w' = Some [ ("version", PInt 1);
                         ("last_update", PStr (isoformat E last_update));
                         ("tag_types", PDict tag_types) ]).
Proof.
  unfold _save_to_store, cleanups. run.
  destruct (_last_update m) as [ts|] eqn:Hts; run;
    destruct (serialise (_tag_types m)) as [tag_types|e]; run;
    try destruct (save_fails E) eqn:Hsave;
    do 3 eexists; (split; [reflexivity|]); world_facts;
    try discriminate; try congruence; intros; eauto.
Qed.

(** The cleanup is one attempt; it returns, and the legacy file is gone
    afterwards unless its removal fails. *)
Lemma cleanup_legacy_file_spec (E : env) (m : t) (w : world) :
  ∃ w',
    _cleanup_legacy_file E (m, w) = (Ret tt, (m, w')) ∧
    cleanups w' = S (cleanups w) ∧
    legacy_file w' = (legacy_file w && remove_file_fails E).
Proof.
  unfold _cleanup_legacy_file, _remove, cleanups. run.
  destruct (legacy_file w) eqn:Hf; [destruct (remove_file_fails E)|];
    eexists; (split; [reflexivity|]); world_facts.
Qed.

Lemma read_store_spec (E : env) (m : t) (w : world) :
  ∃ w1,
    try_except (store_async_load E) Exception (mret None) (m, w)
    = (Ret (read_store E w), (m, w1)) ∧
    cleanups w1 = cleanups w ∧ legacy_file w1 = legacy_file w ∧
    legacy_store w1 = legacy_store w ∧ store w1 = store w.
Proof.
  unfold read_store, cleanups. run.
  destruct (load_fails E); eexists; (split; [reflexivity|]); world_facts.
Qed.

Lemma read_legacy_store_spec (E : env) (m : t) (w : world) :
  ∃ w1,
    try_except (legacy_store_async_load E) Exception (mret None) (m, w)
    = (Ret (read_legacy_store E w), (m, w1)) ∧
    cleanups w1 = cleanups w ∧ legacy_file w1 = legacy_file w ∧
    legacy_store w1 = legacy_store w ∧ store w1 = store w.
Proof.
  unfold read_legacy_store, cleanups. run.
  destruct (legacy_load_fails E); eexists; (split; [reflexivity|]);
    world_facts.
Qed.


Lemma load_fallback_types_spec (E : env) (m : t) (w : world) :
  ∃ w1,
    _load_fallback_types E (m, w)
    = (Ret tt, ({| _tag_types := fallback_types;
                   _last_update := Some (clock E (ticks w)) |}, w1)) ∧
    cleanups w1 = cleanups w ∧ legacy_file w1 = legacy_file w.
Proof.
  unfold _load_fallback_types, cleanups. run.
  eexists; (split; [reflexivity|]); world_facts.
Qed.

Ltac bind := unfold mbind, M_bind; cbv beta.





(** The same with a usable blob under the current key. *)
Lemma legacy_file_survives_cached_load :
  let w := {| store := Some legacy_blob; legacy_store := None;
              legacy_file := true; ticks := 0; refreshes := 0; trace := [] |} in
  let x := ensure_types_loaded (offline 2000) (__init__, w) in
  result_of x = Ret tt ∧
  cleanups (world_after x) = 0%nat ∧
  legacy_file (world_after x) = true.
Proof. vm_compute. repeat split. Qed.


(** * Further properties *)

(** ** The storage form *)

Lemma py_list_gives_list (v o : pyval) : py_list v = Ret o → is_list o = true.
Proof.
  unfold py_list. destruct (py_iter v); cbn; [|discriminate].
  intros [= <-]. reflexivity.
Qed.

Lemma py_list_iterable (v : pyval) : is_ret (py_list v) = iterable v.
Proof. destruct v; reflexivity. Qed.

(** X1: What [to_dict] returns is a fixed point of the round trip through
    [from_dict], for whatever ID: the storage form of the rebuilt record is
    the storage form it was rebuilt from. *)
Theorem storage_form_is_stable (r : TagType.t) (type_id : Z) (d : dict) :
  TagType.to_dict r = Ret d →
  TagType.to_dict (TagType.from_dict type_id d) = Ret d.
Proof.
  unfold TagType.to_dict at 1.
  destruct (py_list (TagType.options r)) as [o|] eqn:Ho; [|discriminate].
  destruct (py_list (TagType.content_ids r)) as [c|] eqn:Hc; [|discriminate].
  cbn [mbind res_bind mret res_ret]. intros [= <-].
  apply py_list_gives_list in Ho, Hc.
  destruct o; try discriminate. destruct c; try discriminate.
  reflexivity.
Qed.

Lemma storage_form_is_stable_witness :
  let r := TagType.__init__ 1 wire_with_string_options in
  ∃ d, TagType.to_dict r = Ret d ∧
       TagType.to_dict (TagType.from_dict 9 d) = Ret d.
Proof.
  eexists. split; [reflexivity|].
  apply (storage_form_is_stable
           (TagType.__init__ 1 wire_with_string_options) 9).
  reflexivity.
Defined.

(** X2: [to_dict] raises exactly when [options] or [content_ids] is [None], a
    boolean or a number, and then it raises [TypeError]; when it returns,
    the result has the thirteen storage keys in their fixed order, with
    lists under [options] and [contentids]. *)
Theorem to_dict_error_behaviour (r : TagType.t) :
  is_ret (TagType.to_dict r)
  = iterable (TagType.options r) && iterable (TagType.content_ids r) ∧
  (∀ e, TagType.to_dict r = Raise e → e = TypeError) ∧
  (∀ d, TagType.to_dict r = Ret d →
     d.*1 = [ "version"; "name"; "width"; "height"; "rotatebuffer"; "bpp";
              "colortable"; "shortlut"; "options"; "contentids"; "template";
              "usetemplate"; "zlib_compression" ] ∧
     is_list (dict_get d "options" PNone) = true ∧
     is_list (dict_get d "contentids" PNone) = true).
Proof.
  unfold TagType.to_dict.
  destruct (TagType.options r) as [| | | s | l | o];
    destruct (TagType.content_ids r) as [| | | s' | l' | o'];
    cbn; (split; [reflexivity|]); split;
    try (intros e [= <-]; reflexivity); try discriminate;
    intros d [= <-]; repeat split.
Qed.

Lemma to_dict_error_behaviour_witness :
  TagType.to_dict (TagType.__init__ 3 [("contentids", PInt 7)])
  = Raise TypeError.
Proof.
  destruct (TagType.to_dict (TagType.__init__ 3 [("contentids", PInt 7)]))
    as [d|e] eqn:H.
  - discriminate H.
  - rewrite (proj1 (proj2 (to_dict_error_behaviour
                             (TagType.__init__ 3 [("contentids", PInt 7)])))
               e H).
    reflexivity.
Defined.

(** X3: The two spellings a stored record may use: [contentids] wins over
    [content_ids] and [short_lut] wins over [shortlut]; the other spelling
    is read when the first is missing, and a stored [None] under the first
    spelling is kept as it is. *)
Theorem from_dict_key_spellings (type_id : Z) (data : dict) :
  let r := TagType.from_dict type_id data in
  (∀ v, lookup_item "contentids" data = Some v → TagType.content_ids r = v) ∧
  (lookup_item "contentids" data = None →
   ∀ v, lookup_item "content_ids" data = Some v → TagType.content_ids r = v) ∧
  (lookup_item "contentids" data = None →
   lookup_item "content_ids" data = None → TagType.content_ids r = PList []) ∧
  (∀ v, lookup_item "short_lut" data = Some v → TagType.short_lut r = v) ∧
  (lookup_item "short_lut" data = None →
   ∀ v, lookup_item "shortlut" data = Some v → TagType.short_lut r = v).
Proof.
  cbn. unfold dict_get. repeat split; intros;
    repeat match goal with H : lookup_item _ data = _ |- _ =>
             rewrite H; clear H end; reflexivity.
Qed.

Lemma from_dict_key_spellings_witness :
  TagType.content_ids
    (TagType.from_dict 1 [("content_ids", PList [PInt 22])])
  = PList [PInt 22].
Proof.
  apply (proj1 (proj2 (from_dict_key_spellings 1
                         [("content_ids", PList [PInt 22])])));
    reflexivity.
Defined.

(** ** The directory listing *)




Lemma mapM_res_raises {A B} (f : A → res B) (l : list A) (x : A) :
  x ∈ l → is_ret (f x) = false → is_ret (mapM f l) = false.
Proof.
  intros Hin Hx. induction l as [|y l IH]; [inversion Hin|].
  cbn. apply elem_of_cons in Hin as [<-|Hin].
  - destruct (f x); [discriminate|reflexivity].
  - destruct (f y); [|reflexivity]. cbn.
    specialize (IH Hin). destruct (mapM f l); [discriminate|reflexivity].
Qed.

(** X5: One item of the listing without a [name], or whose name is not a
    string, fails the whole refresh, whatever the other items are: it
    returns [False] and the manager and the store are as before. *)
Theorem nameless_item_fails_refresh (E : env) (m : t) (w : world)
    (items : list pyval) (item : pyval) :
  directory_contents E (refreshes w) = Ret (PList items) →
  item ∈ items →
  (∀ name, py_getitem item "name" ≠ Ret (PStr name)) →
  let x := _fetch_tag_types E (m, w) in
  result_of x = Ret false ∧ manager_after x = m ∧
  store (world_after x) = store w.
Proof.
  intros Hdir Hin Hname.
  assert (Hitem : is_ret (process_item item) = false).
  { unfold process_item. destruct (py_getitem item "name") as [nm|e];
      [|reflexivity].
    destruct nm; try reflexivity. destruct (Hname s). reflexivity. }
  assert (Hnothing : assembles_nothing E (refreshes w)).
  { intros tbl. unfold assemble. rewrite Hdir. cbn [mbind res_bind].
    unfold list_type_files. cbn [py_iter mbind res_bind].
    pose proof (mapM_res_raises process_item items item Hin Hitem) as Hraise.
    destruct (mapM process_item items); discriminate. }
  cbv zeta. rewrite (fetch_of_nothing E m w Hnothing). repeat split.
Qed.

Lemma nameless_item_fails_refresh_witness :
  let E := {| clock := fun _ => 0; isoformat := py_str;
              fromisoformat := py_int 10;
              get_directory := fun _ =>
                Response 200
                  (Ret (PList [ directory_item "01.json";
                                PDict [("download_url", PStr "u")] ]));
              get_file := fun _ _ =>
                Response 200 (Ret (definition "A" []));
              load_fails := false; legacy_load_fails := false;
              save_fails := false; remove_store_fails := false;
              remove_file_fails := false |} in
  let x := _fetch_tag_types E (warm 0, blank) in
  result_of x = Ret false ∧ manager_after x = warm 0 ∧
  store (world_after x) = store blank.
Proof.
  intros E.
  apply (nameless_item_fails_refresh E (warm 0) blank
           [ directory_item "01.json"; PDict [("download_url", PStr "u")] ]
           (PDict [("download_url", PStr "u")])).
  - reflexivity.
  - right. left.
  - intros name. discriminate.
Defined.

(** X6: An item with a [.json] name and no [download_url] is warned about and
    left out, and an item whose name does not end in [.json] is ignored;
    neither stops the listing. *)
Theorem item_without_url_is_skipped (d : dict) (name : string)
    (before after : list pyval) :
  lookup_item "name" d = Some (PStr name) →
  lookup_item "download_url" d = None ∨ endswith name ".json" = false →
  process_item (PDict d)
  = Ret (if endswith name ".json" then Warned else Ignored) ∧
  list_type_files (PList (before ++ PDict d :: after))
  = list_type_files (PList (before ++ after)).
Proof.
  intros Hname Hcase.
  assert (Hitem : process_item (PDict d)
                  = Ret (if endswith name ".json" then Warned else Ignored)).
  { unfold process_item. cbn [py_getitem]. rewrite Hname.
    cbn [mbind res_bind].
    destruct (endswith name ".json") eqn:Hjson; [|reflexivity].
    destruct Hcase as [Hurl|?]; [|discriminate].
    unfold parse_filename. cbn [py_getitem]. rewrite Hurl.
    destruct (py_int 16 (drop_last 5 name)) as [n|e] eqn:H16;
      [reflexivity|].
    rewrite (py_int_raises_ValueError _ _ _ H16). cbn.
    destruct (py_int 10 (drop_last 5 name)) as [n|e'] eqn:H10;
      [reflexivity|].
    rewrite (py_int_raises_ValueError _ _ _ H10). reflexivity. }
  split; [exact Hitem|].
  unfold list_type_files. cbn [py_iter mbind res_bind].
  rewrite !mapM_res_app. cbn [mapM]. rewrite Hitem. cbn [mbind res_bind].
  destruct (mapM process_item before) as [ob|e]; [|reflexivity].
  destruct (mapM process_item after) as [oa|e]; cbn; [|reflexivity].
  rewrite !omap_app. destruct (endswith name ".json"); reflexivity.
Qed.

Lemma item_without_url_is_skipped_witness :
  process_item (PDict [("name", PStr "0A.json")]) = Ret Warned.
Proof.
  apply (proj1 (item_without_url_is_skipped [("name", PStr "0A.json")]
                  "0A.json" [] [] eq_refl (or_introl eq_refl))).
Defined.

(** ** Warm-up *)

(** The staleness step of [ensure_types_loaded], on a populated manager. *)
Ltac staleness_step E :=
  try match goal with
  | |- context [match _last_update ?m0 with _ => _ end] =>
      destruct (_last_update m0); run
  end;
  try match goal with
  | |- context [older_than_cache_duration ?a ?b] =>
      destruct (older_than_cache_duration a b)
  end;
  cbv beta;
  try match goal with
  | |- context [_fetch_tag_types E (?m0, ?w0)] =>
      let H := fresh "Hkeep" in
      destruct (fetch_frame E m0 w0) as (? & ? & ? & -> & _ & _ & _ & _ & _ & H)
  end.

(** X7: When [ensure_types_loaded] returns, the table is not empty, whatever
    the stores hold and whatever the network answers. *)
Theorem ensure_leaves_table_populated (E : env) (m : t) (w : world) :
  let x := ensure_types_loaded E (m, w) in
  result_of x = Ret tt → _tag_types (manager_after x) ≠ ∅.
Proof.
  cbv zeta. unfold ensure_types_loaded. run.
  destruct (is_empty (_tag_types m)) eqn:H0.
  - destruct (load_stored_data E (m, w)) as [[[]|e] [m1 w1]]; run;
      [|discriminate].
    destruct (is_empty (_tag_types m1)) eqn:H1.
    + destruct (load_fallback_types_spec E m1 w1) as (w2 & -> & _).
      run. staleness_step E; intros _; cbn;
        auto using fallback_types_not_empty.
    + run. apply is_empty_false in H1.
      staleness_step E; intros _; cbn; auto.
  - run. rewrite H0. run. apply is_empty_false in H0.
    staleness_step E; intros _; cbn; auto.
Qed.

Lemma ensure_leaves_table_populated_witness :
  _tag_types
    (manager_after
       (ensure_types_loaded (remote 7 five_files) (__init__, legacy_only)))
  ≠ ∅.
Proof.
  apply (ensure_leaves_table_populated (remote 7 five_files) __init__
           legacy_only).
  reflexivity.
Defined.





(** X10: A successful refresh replaces the table as a whole: a type that was
    known before and is not in the newly assembled mapping is unknown
    afterwards, and its dimensions fall back to 296 by 128. *)
Theorem refresh_forgets_unlisted_types (E : env) (m : t) (w : world)
    (tbl : gmap Z TagType.t) (hw_type : Z) :
  assemble E (refreshes w) = Ret tbl →
  tbl ≠ ∅ →
  tbl !! hw_type = None →
  let m' := manager_after (_fetch_tag_types E (m, w)) in
  is_in_hw_map m' hw_type = false ∧
  get_hw_dimensions m' hw_type = (PInt 296, PInt 128) ∧
  get_hw_string m' hw_type
  = TagType.Value (PStr ("Unknown Type " +:+ pretty hw_type)).
Proof.
  intros Ha Hne Hnone. cbv zeta.
  destruct (refresh_installs E m w tbl Ha Hne) as [-> _].
  unfold is_in_hw_map, get_hw_dimensions, get_hw_string.
  cbn [_tag_types]. rewrite Hnone. repeat split.
Qed.

Lemma refresh_forgets_unlisted_types_witness :
  let m' := manager_after
              (_fetch_tag_types (remote 7 five_files) (warm 0, blank)) in
  is_in_hw_map (warm 0) 33 = true ∧
  is_in_hw_map m' 33 = false ∧
  get_hw_dimensions m' 33 = (PInt 296, PInt 128).
Proof.
  split; [reflexivity|].
  destruct (refresh_forgets_unlisted_types (remote 7 five_files) (warm 0)
              blank
              (foldl (download_entry (remote 7 five_files) 0) ∅
                 [ (1, PStr "https://raw.example/01.json");
                   (2, PStr "https://raw.example/02.json");
                   (3, PStr "https://raw.example/03.json");
                   (4, PStr "https://raw.example/04.json");
                   (5, PStr "https://raw.example/05.json") ])
              33) as (H1 & H2 & _).
  - reflexivity.
  - apply is_empty_false. vm_compute. reflexivity.
  - vm_compute. reflexivity.
  - split; assumption.
Defined.

(** ** What the methods do to the manager *)

Lemma moves_refl (m : t) : moves m m.
Proof. split; auto. Qed.

Lemma moves_trans (m1 m2 m3 : t) : moves m1 m2 → moves m2 m3 → moves m1 m3.
Proof.
  intros [Hl1 Ht1] [Hl2 Ht2]. split; [auto|].
  destruct Ht2 as [Heq|Hb]; [|right; exact Hb].
  rewrite Heq. destruct Ht1 as [Heq1|[Hb Hs]]; [left; exact Heq1|].
  right. split; [exact Hb|auto].
Qed.

Lemma steps_bind {A B} (c : M A) (f : A → M B) :
  steps c → (∀ a, steps (f a)) → steps (c ≫= f).
Proof.
  intros Hc Hf m w. unfold mbind, M_bind.
  specialize (Hc m w). destruct (c (m, w)) as [[a|e] [m1 w1]].
  - eapply moves_trans; [exact Hc|]. apply Hf.
  - exact Hc.
Qed.

Lemma steps_try_except {A} (body handler : M A) (catches : exn → bool) :
  steps body → steps handler → steps (try_except body catches handler).
Proof.
  intros Hb Hh m w. unfold try_except.
  specialize (Hb m w). destruct (body (m, w)) as [[a|e] [m1 w1]].
  - exact Hb.
  - destruct (catches e); [|exact Hb].
    eapply moves_trans; [exact Hb|]. apply Hh.
Qed.

Lemma steps_same {A} (c : M A) :
  (∀ m w, manager_after (c (m, w)) = m) → steps c.
Proof. intros H m w. rewrite H. apply moves_refl. Qed.

Lemma steps_ret {A} (a : A) : steps (mret a).
Proof. apply steps_same. reflexivity. Qed.

Lemma steps_set_last_update (ts : Z) : steps (set_last_update ts).
Proof. intros m w. split; cbn; eauto. Qed.

Lemma steps_now (E : env) : steps (now E).
Proof. apply steps_same. reflexivity. Qed.

Lemma steps_store_async_load (E : env) : steps (store_async_load E).
Proof.
  apply steps_same. intros m w. unfold store_async_load. run.
  destruct (load_fails E); reflexivity.
Qed.

Lemma steps_legacy_store_async_load (E : env) :
  steps (legacy_store_async_load E).
Proof.
  apply steps_same. intros m w. unfold legacy_store_async_load. run.
  destruct (legacy_load_fails E); reflexivity.
Qed.

Lemma steps_async_remove_store (E : env) : steps (async_remove_store E).
Proof.
  apply steps_same. intros m w. unfold async_remove_store. run.
  destruct (remove_store_fails E); reflexivity.
Qed.

Lemma steps_cleanup_legacy_file (E : env) : steps (_cleanup_legacy_file E).
Proof.
  apply steps_same. intros m w.
  destruct (cleanup_legacy_file_spec E m w) as (w' & -> & _). reflexivity.
Qed.

Lemma steps_load_fallback_types (E : env) : steps (_load_fallback_types E).
Proof.
  intros m w. destruct (load_fallback_types_spec E m w) as (w' & -> & _).
  split; cbn; [eauto|]. right. split; [|eauto]. right. left. reflexivity.
Qed.

Lemma steps_save_to_store (E : env) : steps (_save_to_store E).
Proof.
  intros m w.
  destruct (save_to_store_spec E m w)
    as (r & m' & w' & -> & _ & _ & _ & Ht & Hlu & _).
  split; cbn.
  - intros [ts Hts]. rewrite (Hlu ts Hts). eauto.
  - left. exact Ht.
Qed.

Lemma steps_load_from_payload (E : env) (d : dict) :
  steps (_load_from_payload E d).
Proof.
  intros m w. unfold _load_from_payload. run.
  destruct (truthy (dict_get d "last_update" PNone)); run;
    try destruct (py_fromisoformat E (dict_get d "last_update" PNone))
      as [ts|e];
    try destruct (TypeError_or_ValueError e);
    try destruct (py_items (dict_get d "tag_types" (PDict [])))
      as [items|e'];
    split; cbn; eauto;
    right; (split; [|eauto]); first [left; reflexivity | do 3 right; eauto].
Qed.

Lemma steps_fetch_tag_types (E : env) : steps (_fetch_tag_types E).
Proof.
  intros m w. unfold _fetch_tag_types. run.
  destruct (assemble E (refreshes w)) as [tbl|e] eqn:Ha;
    [|apply moves_refl].
  destruct (is_empty tbl); [apply moves_refl|].
  assert (Hb : built_table tbl).
  { unfold assemble in Ha.
    destruct (directory_contents E (refreshes w)); [|discriminate].
    cbn [mbind res_bind] in Ha.
    destruct (list_type_files a) as [type_files|]; [|discriminate].
    injection Ha as <-. do 2 right. left. eauto. }
  unfold _save_to_store. run.
  destruct (serialise tbl); [destruct (save_fails E)|];
    (split; cbn; [eauto|right; split; [exact Hb|eauto]]).
Qed.

Lemma steps_load_stored_data (E : env) : steps (load_stored_data E).
Proof.
  unfold load_stored_data.
  apply steps_bind;
    [apply steps_try_except;
       [apply steps_store_async_load|apply steps_ret]|].
  intros stored_data.
  destruct (usable stored_data); [apply steps_load_from_payload|].
  apply steps_bind.
  - destruct (present stored_data); [apply steps_ret|].
    apply steps_bind;
      [apply steps_try_except;
         [apply steps_legacy_store_async_load|apply steps_ret]|].
    intros legacy_data. destruct (usable legacy_data); [|apply steps_ret].
    apply steps_bind; [apply steps_load_from_payload|intros _].
    apply steps_bind; [apply steps_save_to_store|intros _].
    apply steps_bind; [|intros _; apply steps_ret].
    apply steps_try_except; [apply steps_async_remove_store|apply steps_ret].
  - intros [|]; [apply steps_ret|].
    apply steps_bind; [apply steps_fetch_tag_types|].
    intros [|]; [apply steps_cleanup_legacy_file|].
    apply steps_bind; [apply steps_same; reflexivity|intros m0].
    apply steps_bind; [|intros _; apply steps_cleanup_legacy_file].
    destruct (is_empty (_tag_types m0));
      [apply steps_load_fallback_types|apply steps_ret].
Qed.

Lemma steps_ensure_types_loaded (E : env) : steps (ensure_types_loaded E).
Proof.
  unfold ensure_types_loaded.
  apply steps_bind; [apply steps_same; reflexivity|intros m0].
  apply steps_bind;
    [destruct (is_empty (_tag_types m0));
       [apply steps_load_stored_data|apply steps_ret]|intros _].
  apply steps_bind; [apply steps_same; reflexivity|intros m1].
  apply steps_bind;
    [destruct (is_empty (_tag_types m1));
       [apply steps_load_fallback_types|apply steps_ret]|intros _].
  apply steps_bind; [apply steps_same; reflexivity|intros m2].
  apply steps_bind.
  - destruct (_last_update m2); [|apply steps_ret].
    apply steps_bind; [apply steps_now|intros; apply steps_ret].
  - intros [|]; [|apply steps_ret].
    apply steps_bind; [apply steps_fetch_tag_types|intros; apply steps_ret].
Qed.

Lemma keyed_fallback_types : keyed fallback_types.
Proof.
  apply map_Forall_to_list, Forall_forall. intros [hw_type r] Hin.
  assert (Hall : forallb (fun e : Z * TagType.t => TagType.type_id e.2 =? e.1)
                   (map_to_list fallback_types) = true)
    by (vm_compute; reflexivity).
  rewrite forallb_forall in Hall.
  apply list_elem_of_In in Hin. apply Hall in Hin. cbn in Hin.
  apply Z.eqb_eq. exact Hin.
Qed.

Lemma keyed_download (E : env) (k : nat) (type_files : list (Z * pyval)) :
  ∀ tbl, keyed tbl → keyed (foldl (download_entry E k) tbl type_files).
Proof.
  induction type_files as [|[hw_type url] l IH]; intros tbl Hk; [exact Hk|].
  cbn [foldl]. apply IH. rewrite download_entry_spec.
  destruct (accepted (get_file E k url)); [|exact Hk].
  apply map_Forall_insert_2; [reflexivity|exact Hk].
Qed.

Lemma keyed_load (items : list (string * pyval)) :
  ∀ tbl, keyed tbl → keyed (foldl load_item tbl items).
Proof.
  induction items as [|[key value] l IH]; intros tbl Hk; [exact Hk|].
  cbn [foldl]. apply IH. unfold load_item.
  destruct (py_int 10 key); [|exact Hk].
  destruct value; try exact Hk.
  apply map_Forall_insert_2; [reflexivity|exact Hk].
Qed.

Lemma keyed_built (tbl : gmap Z TagType.t) : built_table tbl → keyed tbl.
Proof.
  intros [->|[->|[(E & k & l & ->)|(items & ->)]]].
  - apply map_Forall_empty.
  - apply keyed_fallback_types.
  - apply keyed_download, map_Forall_empty.
  - apply keyed_load, map_Forall_empty.
Qed.

Lemma moves_keyed (m m' : t) :
  moves m m' → keyed (_tag_types m) → keyed (_tag_types m').
Proof.
  intros [_ [->|[Hb _]]] Hk; [exact Hk|]. apply keyed_built. exact Hb.
Qed.

Lemma moves_stamped (m m' : t) : moves m m' → stamped m → stamped m'.
Proof.
  intros [Hl [Heq|[_ Hs]]] Hst Hne; [|exact Hs].
  apply Hl, Hst. rewrite <- Heq. exact Hne.
Qed.

(** ** Invariants of the table *)

(** X11: Every record of the table carries the ID it is stored under: warm-up
    keeps this true, so the record [get_tag_info] returns for an ID has that
    ID as its [type_id], whichever source filled the table. *)
Theorem records_carry_their_id (E : env) (m : t) (w : world) :
  keyed (_tag_types m) →
  keyed (_tag_types (manager_after (ensure_types_loaded E (m, w)))) ∧
  ∀ hw_type r,
    result_of (get_tag_info E hw_type (m, w)) = Ret r →
    TagType.type_id r = hw_type.
Proof.
  intros Hk.
  pose proof (moves_keyed _ _ (steps_ensure_types_loaded E m w) Hk) as Hk'.
  split; [exact Hk'|].
  intros hw_type r. unfold get_tag_info. run.
  destruct (ensure_types_loaded E (m, w)) as [[[]|e] [m1 w1]];
    [|discriminate].
  cbn in Hk'. run.
  destruct (_tag_types m1 !! hw_type) as [r'|] eqn:Hlook; [|discriminate].
  intros [= <-]. exact (Hk' hw_type r' Hlook).
Qed.

Lemma records_carry_their_id_witness :
  keyed (_tag_types
           (manager_after
              (ensure_types_loaded (remote 7 five_files) (__init__, blank)))).
Proof.
  apply (proj1 (records_carry_their_id (remote 7 five_files) __init__ blank
                  (map_Forall_empty _))).
Defined.

(** X12: A populated manager has a timestamp, and a timestamp is never unset:
    the load protocol, a refresh and the whole warm-up keep both true,
    whether they return or raise. *)
Theorem populated_manager_has_timestamp (E : env) (m : t) (w : world) :
  stamped m →
  stamped (manager_after (load_stored_data E (m, w))) ∧
  stamped (manager_after (_fetch_tag_types E (m, w))) ∧
  stamped (manager_after (ensure_types_loaded E (m, w))) ∧
  (is_Some (_last_update m) →
   is_Some (_last_update (manager_after (ensure_types_loaded E (m, w))))).
Proof.
  intros Hst. repeat split.
  - exact (moves_stamped _ _ (steps_load_stored_data E m w) Hst).
  - exact (moves_stamped _ _ (steps_fetch_tag_types E m w) Hst).
  - exact (moves_stamped _ _ (steps_ensure_types_loaded E m w) Hst).
  - exact (proj1 (steps_ensure_types_loaded E m w)).
Qed.

Lemma populated_manager_has_timestamp_witness :
  stamped (manager_after
             (ensure_types_loaded (offline 5) (__init__, legacy_only))).
Proof.
  refine (proj1 (proj2 (proj2 (populated_manager_has_timestamp (offline 5)
                                 __init__ legacy_only _)))).
  intros Hne. destruct Hne. reflexivity.
Defined.

(** ** When warm-up raises *)




(** X14: A usable blob whose [tag_types] is not a JSON object makes warm-up of a
    new manager raise (the loop calls [.items()] on it outside any [try]),
    and the manager is left with an empty table. *)
Theorem malformed_blob_raises (E : env) (m : t) (w : world) (d : dict)
    (e : exn) :
  _tag_types m = ∅ →
  usable (read_store E w) = Some d →
  py_items (dict_get d "tag_types" (PDict [])) = Raise e →
  let x := ensure_types_loaded E (m, w) in
  is_ret (result_of x) = false ∧ _tag_types (manager_after x) = ∅.
Proof.
  intros Hm Hu Hitems. cbv zeta. unfold ensure_types_loaded. run.
  rewrite Hm. change (is_empty ∅) with true. cbv iota.
  unfold load_stored_data. bind.
  destruct (read_store_spec E m w) as (w1 & -> & _).
  rewrite Hu. unfold _load_from_payload. run. rewrite Hitems.
  destruct (truthy (dict_get d "last_update" PNone)); run;
    try destruct (py_fromisoformat E (dict_get d "last_update" PNone))
      as [ts|e'];
    try destruct (TypeError_or_ValueError e');
    split; solve [reflexivity | exact Hm].
Qed.

Lemma malformed_blob_raises_witness :
  let w := {| store := Some [("version", PInt 1); ("tag_types", PList [])];
              legacy_store := None; legacy_file := false;
              ticks := 0; refreshes := 0; trace := [] |} in
  let x := ensure_types_loaded (remote 7 five_files) (__init__, w) in
  is_ret (result_of x) = false ∧ _tag_types (manager_after x) = ∅.
Proof.
  intros w.
  apply (malformed_blob_raises (remote 7 five_files) __init__ w
           [("version", PInt 1); ("tag_types", PList [])] AttributeError);
    reflexivity.
Defined.

(** ** The module-level instance *)

(** X15: [get_tag_types_manager] binds the new manager before warming it up:
    after the first call an instance is registered, whether the call
    returned or raised, and every later call returns that instance without
    a storage call, a request or a reading of the clock. *)
Theorem instance_is_registered_once (E E' : env) (w : world) :
  let first := tag_types.get_tag_types_manager E (None, w) in
  first.2.1 = Some (manager_after (ensure_types_loaded E (__init__, w))) ∧
  ∀ m g, first.2 = (Some m, g) →
         tag_types.get_tag_types_manager E' first.2 = (Ret m, (Some m, g)).
Proof.
  cbv zeta. unfold tag_types.get_tag_types_manager.
  destruct (ensure_types_loaded E (__init__, w)) as [[[]|e] [m1 w1]];
    cbn [fst snd]; (split; [reflexivity|]); intros m g [= <- <-];
    reflexivity.
Qed.

Lemma instance_is_registered_once_witness :
  let w := {| store := Some [("version", PInt 1); ("tag_types", PList [])];
              legacy_store := None; legacy_file := false;
              ticks := 0; refreshes := 0; trace := [] |} in
  let first :=
    tag_types.get_tag_types_manager (remote 7 five_files) (None, w) in
  first.1 = Raise AttributeError ∧
  tag_types.get_tag_types_manager (offline 0) first.2
  = (Ret {| _tag_types := ∅; _last_update := Some 7 |}, first.2).
Proof.
  intros w first. split; [reflexivity|].
  apply (proj2 (instance_is_registered_once (remote 7 five_files) (offline 0)
                  w)).
  reflexivity.
Defined.

(** X16: The module-level lookups agree with one another, with or without an
    instance: where [is_in_hw_map] is false (no instance, as after a reset,
    or an ID not in the table) the other two answer with the defaults
    296 x 128 and [Unknown Type <id>]; where it is true there is a record
    under that ID and they answer with its width, height and name, so the
    default passed to [get] is never used. *)
Theorem module_lookups_agree (_INSTANCE : option t) (w : world)
    (hw_type : Z) :
  (tag_types.reset_tag_types_manager (_INSTANCE, w)).2 = (None, w) ∧
  (tag_types.is_in_hw_map _INSTANCE hw_type = false →
   (_INSTANCE = None ∨
    ∃ m, _INSTANCE = Some m ∧ _tag_types m !! hw_type = None) ∧
   tag_types.get_hw_dimensions _INSTANCE hw_type = (PInt 296, PInt 128) ∧
   tag_types.get_hw_string _INSTANCE hw_type
   = TagType.Value (PStr ("Unknown Type " +:+ pretty hw_type))) ∧
  (tag_types.is_in_hw_map _INSTANCE hw_type = true →
   ∃ m r, _INSTANCE = Some m ∧ _tag_types m !! hw_type = Some r ∧
          tag_types.get_hw_dimensions _INSTANCE hw_type
          = (TagType.width r, TagType.height r) ∧
          tag_types.get_hw_string _INSTANCE hw_type
          = TagType.Value (TagType.name r)).
Proof.
  split; [reflexivity|].
  destruct _INSTANCE as [m|]; cbn [tag_types.is_in_hw_map
    tag_types.get_hw_dimensions tag_types.get_hw_string].
  - unfold is_in_hw_map, get_hw_dimensions, get_hw_string.
    destruct (_tag_types m !! hw_type) as [r|] eqn:Hl; split.
    + intros Hno. apply bool_decide_eq_false in Hno. destruct Hno. eauto.
    + intros _. exists m, r. repeat split. exact Hl.
    + intros _. repeat split. right. exists m. split; [reflexivity|exact Hl].
    + intros Hyes. apply bool_decide_eq_true in Hyes.
      destruct Hyes as [? Hyes]. discriminate Hyes.
  - split; [intros _; repeat split; left; reflexivity|discriminate].
Qed.

Lemma module_lookups_agree_witness :
  tag_types.get_hw_dimensions (Some (warm 0)) 1000 = (PInt 296, PInt 128) ∧
  tag_types.get_hw_string (Some (warm 0)) 1000
  = TagType.Value (PStr "Unknown Type 1000").
Proof.
  apply (proj1 (proj2 (module_lookups_agree (Some (warm 0)) blank 1000))).
  reflexivity.
Defined.

(** ** Saving and loading *)

Lemma to_dict_raises_TypeError (r : TagType.t) (e : exn) :
  TagType.to_dict r = Raise e → e = TypeError.
Proof.
  unfold TagType.to_dict, py_list.
  destruct (TagType.options r); destruct (TagType.content_ids r);
    cbv [py_iter mbind res_bind mret res_ret]; congruence.
Qed.

Lemma serialise_raises_TypeError (tbl : gmap Z TagType.t) (e : exn) :
  serialise tbl = Raise e → e = TypeError.
Proof.
  unfold serialise. induction (map_to_list tbl) as [|[type_id r] l IH]; cbn;
    [discriminate|].
  destruct (TagType.to_dict r) as [d|e'] eqn:Hd; cbn.
  - destruct (mapM _ l) as [k|e'']; cbn; [discriminate|].
    intros [= <-]. apply IH. reflexivity.
  - intros [= <-]. eapply to_dict_raises_TypeError. exact Hd.
Qed.

(** X17: [_save_to_store] returns exactly when every record can be written;
    otherwise it raises [TypeError] before any write is attempted.  A write
    the store refuses is swallowed: the call still returns, and the store
    is as before.  A missing timestamp is set from the clock first, and the
    table is never changed. *)
Theorem save_error_behaviour (E : env) (m : t) (w : world) :
  let x := _save_to_store E (m, w) in
  (is_ret (serialise (_tag_types m)) = true → result_of x = Ret tt) ∧
  (is_ret (serialise (_tag_types m)) = false →
     result_of x = Raise TypeError ∧ trace (world_after x) = trace w) ∧
  (is_ret (serialise (_tag_types m)) = false ∨ save_fails E = true →
     store (world_after x) = store w) ∧
  (_last_update m = None →
     _last_update (manager_after x) = Some (clock E (ticks w))) ∧
  _tag_types (manager_after x) = _tag_types m.
Proof.
  cbv zeta. unfold _save_to_store. run.
  destruct (_last_update m) as [ts|] eqn:Hts; run;
    destruct (serialise (_tag_types m)) as [tag_types|e] eqn:Hser; run;
    try rewrite (serialise_raises_TypeError _ _ Hser);
    try destruct (save_fails E) eqn:Hsave;
    repeat split; cbn; try discriminate; try reflexivity;
    intros [?|?]; discriminate.
Qed.

Lemma save_error_behaviour_witness :
  let m := {| _tag_types := {[ 1 := TagType.__init__ 1 [("options", PNone)] ]};
              _last_update := None |} in
  let x := _save_to_store (offline 9) (m, blank) in
  result_of x = Raise TypeError ∧ trace (world_after x) = trace blank.
Proof.
  intros m.
  apply (proj1 (proj2 (save_error_behaviour (offline 9) m blank))).
  reflexivity.
Defined.

(** X18: The timestamp a payload gives: the parsed [last_update] when it is a
    non-empty string that [fromisoformat] accepts, and the reading of the
    clock when it is missing, empty or otherwise false, when it is not a
    string, and when [fromisoformat] rejects it with [ValueError]. *)
Theorem payload_timestamp (E : env) (d : dict) (m : t) (w : world) :
  let last_update := dict_get d "last_update" PNone in
  let m' := manager_after (_load_from_payload E d (m, w)) in
  (truthy last_update = false →
     _last_update m' = Some (clock E (ticks w))) ∧
  (truthy last_update = true → (∀ s, last_update ≠ PStr s) →
     _last_update m' = Some (clock E (ticks w))) ∧
  (∀ s, last_update = PStr s → s ≠ "" →
     (∀ ts, fromisoformat E s = Ret ts → _last_update m' = Some ts) ∧
     (fromisoformat E s = Raise ValueError →
        _last_update m' = Some (clock E (ticks w)))).
Proof.
  cbv zeta. split; [|split].
  - intros Hf. unfold _load_from_payload. run. rewrite Hf. run.
    destruct (py_items _); reflexivity.
  - intros Ht Hns. unfold _load_from_payload. run. rewrite Ht. run.
    assert (Hraise : py_fromisoformat E (dict_get d "last_update" PNone)
                     = Raise TypeError).
    { destruct (dict_get d "last_update" PNone); try reflexivity.
      destruct (Hns s). reflexivity. }
    rewrite Hraise. cbn [TypeError_or_ValueError]. run.
    destruct (py_items _); reflexivity.
  - intros s Hs Hne. unfold _load_from_payload. run. rewrite Hs.
    cbn [truthy py_fromisoformat].
    assert (Ht : negb (String.eqb s "") = true).
    { destruct (String.eqb_spec s ""); [contradiction|reflexivity]. }
    rewrite Ht. run. split.
    + intros ts ->. run. destruct (py_items _); reflexivity.
    + intros ->. cbn [TypeError_or_ValueError]. run.
      destruct (py_items _); reflexivity.
Qed.

Lemma payload_timestamp_witness :
  _last_update
    (manager_after
       (_load_from_payload (offline 50)
          [("version", PInt 1); ("last_update", PStr "yesterday")]
          (__init__, blank)))
  = Some 50.
Proof.
  apply (proj2 (proj2 (proj2 (payload_timestamp (offline 50)
                                [("version", PInt 1);
                                 ("last_update", PStr "yesterday")]
                                __init__ blank))
                  "yesterday" eq_refl ltac:(discriminate))).
  reflexivity.
Defined.

(** *** [int(str(n))] *)

Lemma decimal_digit_facts (c : ascii) :
  is_decimal_digit c = true →
  is_space c = false ∧ is_underscore c = false ∧
  (nat_of_ascii c =? 45)%nat = false ∧ (nat_of_ascii c =? 43)%nat = false.
Proof.
  destruct c as [[] [] [] [] [] [] [] []]; vm_compute; intros H;
    try discriminate H; repeat split.
Qed.

Lemma pretty_N_char_digit (d : N) :
  (d < 10)%N →
  is_decimal_digit (pretty_N_char d) = true ∧
  digit_val (pretty_N_char d) = Some (Z.of_N d).
Proof.
  intros Hd.
  assert (d = 0 ∨ d = 1 ∨ d = 2 ∨ d = 3 ∨ d = 4 ∨ d = 5 ∨ d = 6 ∨ d = 7
          ∨ d = 8 ∨ d = 9)%N as Hcases by lia.
  repeat (destruct Hcases as [->|Hcases]; [split; reflexivity|]).
  subst d. split; reflexivity.
Qed.

(** The digits [pretty_N_go] puts in front of [s], as the digit loop reads
    them. *)
Lemma pretty_N_go_scan (x : N) :
  ∀ s, ∃ l,
    list_ascii_of_string (pretty_N_go x s) = (l ++ list_ascii_of_string s)%list ∧
    Forall (fun c => is_decimal_digit c = true) l ∧
    ((0 < x)%N → l ≠ []) ∧
    ∀ acc seen rest,
      scan_digits 10 acc false seen (l ++ rest)
      = scan_digits 10 (acc * 10 ^ Z.of_nat (length l) + Z.of_N x) false
          (seen || negb (x =? 0)%N) rest.
Proof.
  induction (N.lt_wf_0 x) as [x _ IH]. intros s.
  assert (x = 0 ∨ 0 < x)%N as [->|Hpos] by lia.
  - exists []. rewrite pretty_N_go_0. repeat split.
    + constructor.
    + intros H. lia.
    + intros acc seen rest. cbn [app length Z.of_nat N.eqb negb].
      rewrite orb_false_r. f_equal. lia.
  - rewrite pretty_N_go_step by exact Hpos.
    destruct (IH (x `div` 10)%N (N.div_lt x 10 Hpos eq_refl)
                (String (pretty_N_char (x `mod` 10)) s))
      as (l & Hl & Hdig & _ & Hscan).
    assert (Hmod : (x `mod` 10 < 10)%N) by (apply N.mod_lt; lia).
    destruct (pretty_N_char_digit _ Hmod) as [Hc Hv].
    exists (l ++ [pretty_N_char (x `mod` 10)])%list. repeat split.
    + rewrite Hl. cbn [list_ascii_of_string]. rewrite <- app_assoc.
      reflexivity.
    + apply Forall_app. split; [exact Hdig|]. constructor; [exact Hc|].
      constructor.
    + intros _ H. apply app_eq_nil in H as [_ H]. discriminate H.
    + intros acc seen rest. rewrite <- app_assoc. cbn [app].
      rewrite Hscan. cbn [scan_digits].
      destruct (decimal_digit_facts _ Hc) as (_ & -> & _).
      rewrite Hv.
      assert (Hlt : (Z.of_N (x `mod` 10) <? 10) = true)
        by (apply Z.ltb_lt; lia).
      rewrite Hlt.
      assert (Hne : (x =? 0)%N = false) by (apply N.eqb_neq; lia).
      rewrite Hne. cbn [negb]. rewrite orb_true_r.
      f_equal. rewrite length_app. cbn [length].
      rewrite Nat2Z.inj_add, Z.pow_add_r by lia.
      rewrite N2Z.inj_div, N2Z.inj_mod.
      change (Z.of_N 10) with 10. change (Z.of_nat 1) with 1.
      pose proof (Z.div_mod (Z.of_N x) 10 ltac:(lia)). lia.
Qed.

Lemma parse_digits (x : N) (neg : bool) :
  (0 < x)%N →
  parse_int 10
    ((if neg then ["-"%char] else []) ++
     list_ascii_of_string (pretty_N_go x ""))
  = Some (if neg then - Z.of_N x else Z.of_N x).
Proof.
  intros Hpos.
  destruct (pretty_N_go_scan x "") as (l & Hl & Hdig & Hne & Hscan).
  rewrite Hl. cbn [list_ascii_of_string]. rewrite app_nil_r.
  destruct l as [|c l]; [destruct (Hne Hpos); reflexivity|].
  pose proof (Forall_inv Hdig) as Hc.
  destruct (decimal_digit_facts c Hc) as (Hsp & Hus & Hminus & Hplus).
  specialize (Hscan 0 false []). rewrite app_nil_r in Hscan.
  assert (Hx : (x =? 0)%N = false) by (apply N.eqb_neq; lia).
  rewrite Hx in Hscan. cbn [negb orb] in Hscan.
  assert (Hbody : ∀ neg',
    match c :: l with
    | [] => None
    | c0 :: _ =>
        if is_underscore c0 then None
        else match scan_digits 10 0 false false (c :: l) with
             | Some (n, rest) =>
                 if forallb is_space rest
                 then Some (if neg' : bool then - n else n) else None
             | None => None
             end
    end = Some (if neg' then - Z.of_N x else Z.of_N x)).
  { intros neg'. rewrite Hus, Hscan. cbn [scan_digits forallb].
    destruct neg'; f_equal; lia. }
  unfold parse_int. destruct neg.
  - cbn [app skip_spaces]. change (is_space "-") with false. cbv iota.
    change (nat_of_ascii "-" =? 45)%nat with true. cbv iota.
    assert (Hpre : skip_prefix 10 (c :: l) = c :: l)
      by (destruct l; reflexivity).
    rewrite Hpre. exact (Hbody true).
  - cbn [app skip_spaces]. rewrite Hsp, Hminus, Hplus.
    assert (Hpre : skip_prefix 10 (c :: l) = c :: l)
      by (destruct l; reflexivity).
    rewrite Hpre. exact (Hbody false).
Qed.

(** [int(str(n))] is [n]. *)
Lemma py_int_py_str (n : Z) : py_int 10 (py_str n) = Ret n.
Proof.
  unfold py_int, py_str, pretty, pretty_Z.
  destruct n as [|p|p]; [reflexivity| |].
  - unfold pretty, pretty_positive, pretty, pretty_N.
    destruct (decide (N.pos p = 0%N)); [discriminate|].
    pose proof (parse_digits (N.pos p) false ltac:(lia)) as Hp.
    cbn [app] in Hp. rewrite Hp. reflexivity.
  - unfold pretty, pretty_positive, pretty, pretty_N.
    destruct (decide (N.pos p = 0%N)); [discriminate|].
    pose proof (parse_digits (N.pos p) true ltac:(lia)) as Hp.
    cbn [app] in Hp.
    change (list_ascii_of_string ("-" +:+ pretty_N_go (N.pos p) ""))
      with ("-"%char :: list_ascii_of_string (pretty_N_go (N.pos p) "")).
    rewrite Hp. reflexivity.
Qed.

(** *** What is saved is what is loaded *)

Lemma filter_all {A} (P : A → Prop) `{∀ x, Decision (P x)} (l : list A) :
  Forall P l → filter P l = l.
Proof.
  induction 1 as [|x l Hx _ IH]; [reflexivity|].
  rewrite filter_cons. destruct (decide (P x)); [|contradiction].
  rewrite IH. reflexivity.
Qed.

Lemma dict_keys_NoDup (d : dict) : NoDup d.*1 → dict_keys d = d.*1.
Proof.
  induction d as [|[k v] d IH]; [reflexivity|].
  cbn. intros Hnd. apply NoDup_cons in Hnd as [Hk Hnd].
  rewrite (IH Hnd). f_equal. apply filter_all, Forall_forall.
  intros k' Hin ->. contradiction.
Qed.

Lemma lookup_item_NoDup (d : dict) (k : string) (v : pyval) :
  NoDup d.*1 → (k, v) ∈ d → lookup_item k d = Some v.
Proof.
  induction d as [|[k' v'] d IH]; intros Hnd Hin; [inversion Hin|].
  cbn in *. apply NoDup_cons in Hnd as [Hk Hnd].
  apply elem_of_cons in Hin as [[= -> ->]|Hin].
  - rewrite String.eqb_refl. reflexivity.
  - destruct (String.eqb_spec k k') as [->|_]; [|apply IH; assumption].
    destruct Hk. apply list_elem_of_fmap. exists (k', v). split; [reflexivity|].
    exact Hin.
Qed.

Lemma py_items_NoDup (d : dict) : NoDup d.*1 → py_items (PDict d) = Ret d.
Proof.
  intros Hnd. unfold py_items. f_equal. rewrite (dict_keys_NoDup d Hnd).
  rewrite <- list_fmap_compose. rewrite <- (list_fmap_id d) at 2.
  apply list_fmap_ext. intros i [k v] Hi. cbn. f_equal.
  unfold dict_get. rewrite (lookup_item_NoDup d k v Hnd); [reflexivity|].
  eapply list_elem_of_lookup_2. exact Hi.
Qed.

Lemma mapM_res_Ret {A B} (f : A → res B) (l : list A) (k : list B) :
  mapM f l = Ret k → Forall2 (fun x y => f x = Ret y) l k.
Proof.
  revert k. induction l as [|x l IH]; intros k; cbn.
  - intros [= <-]. constructor.
  - destruct (f x) as [y|e] eqn:Hx; cbn; [|discriminate].
    destruct (mapM f l) as [k'|e]; cbn; [|discriminate].
    intros [= <-]. constructor; [exact Hx|]. apply IH. reflexivity.
Qed.

(** The storage form of one item of the table. *)
Lemma serialised_item (type_id : Z) (r : TagType.t) (y : string * pyval) :
  (d ← TagType.to_dict r; mret (py_str type_id, PDict d)) = Ret y →
  ∃ d, TagType.to_dict r = Ret d ∧ y = (py_str type_id, PDict d).
Proof.
  destruct (TagType.to_dict r) as [d|e]; cbn; [|discriminate].
  intros [= <-]. eauto.
Qed.

Lemma load_serialised (hw_type : Z) (l : list (Z * TagType.t))
    (k : list (string * pyval)) :
  Forall2 (fun (x : Z * TagType.t) y =>
             (let '(type_id, tag_type) := x in
              d ← TagType.to_dict tag_type; mret (py_str type_id, PDict d))
             = Ret y) l k →
  NoDup l.*1 →
  ∀ tbl0,
    foldl load_item tbl0 k !! hw_type =
      match (list_to_map l : gmap Z TagType.t) !! hw_type with
      | Some r =>
          match TagType.to_dict r with
          | Ret d => Some (TagType.from_dict hw_type d)
          | Raise _ => None
          end
      | None => tbl0 !! hw_type
      end.
Proof.
  induction 1 as [|[type_id r] y l k Hy _ IH]; intros Hnd tbl0;
    [reflexivity|].
  apply serialised_item in Hy as (d & Hd & ->).
  cbn in Hnd. apply NoDup_cons in Hnd as [Hfresh Hnd].
  cbn [foldl]. rewrite (IH Hnd). unfold load_item.
  rewrite py_int_py_str, list_to_map_cons.
  assert (Hnone : (list_to_map l : gmap Z TagType.t) !! type_id = None)
    by (apply not_elem_of_list_to_map_1; exact Hfresh).
  destruct (decide (type_id = hw_type)) as [->|Hne].
  - rewrite Hnone, !lookup_insert_eq, Hd. reflexivity.
  - rewrite !lookup_insert_ne by exact Hne. reflexivity.
Qed.

Lemma serialised_keys (l : list (Z * TagType.t)) (k : list (string * pyval)) :
  Forall2 (fun (x : Z * TagType.t) y =>
             (let '(type_id, tag_type) := x in
              d ← TagType.to_dict tag_type; mret (py_str type_id, PDict d))
             = Ret y) l k →
  k.*1 = py_str <$> l.*1.
Proof.
  induction 1 as [|[type_id r] y l k Hy _ IH]; [reflexivity|].
  apply serialised_item in Hy as (d & _ & ->). cbn. rewrite IH. reflexivity.
Qed.

(** X19: Save and load compose to the round trip of the records: when
    [_save_to_store] returns and the store takes the write, the blob in the
    store is a usable one, and loading it, into any manager, returns with
    the timestamp that was saved and a table that holds, under each ID of
    the saved table and no other, the record [from_dict] rebuilds from the
    storage form of the saved record. *)
Theorem saved_table_loads_back (E : env) (m m0 : t) (w w0 : world) :
  iso_round_trip E →
  save_fails E = false →
  let x := _save_to_store E (m, w) in
  result_of x = Ret tt →
  ∃ blob,
    store (world_after x) = Some blob ∧
    usable (Some blob) = Some blob ∧
    let y := _load_from_payload E blob (m0, w0) in
    result_of y = Ret tt ∧
    _last_update (manager_after y) = _last_update (manager_after x) ∧
    ∀ hw_type,
      _tag_types (manager_after y) !! hw_type
      = reloaded (_tag_types m) hw_type.
Proof.
  intros Hiso Hsave. cbv zeta.
  destruct (save_to_store_spec E m w)
    as (r & m' & w' & -> & _ & _ & _ & _ & _ & Hstored).
  cbn [result_of manager_after world_after fst snd]. intros ->.
  destruct (Hstored eq_refl Hsave) as (tag_types & ts & Hts & Hser & Hstore).
  eexists. split; [exact Hstore|]. split; [reflexivity|].
  unfold serialise in Hser. apply mapM_res_Ret in Hser.
  assert (Hnd : NoDup tag_types.*1).
  { rewrite (serialised_keys _ _ Hser). apply NoDup_fmap_2.
    - intros a b. apply pretty_Z_inj.
    - apply NoDup_fst_map_to_list. }
  destruct (Hiso ts) as [Hparse Hnonempty].
  unfold _load_from_payload. run.
  change (dict_get _ "last_update" PNone) with (PStr (isoformat E ts)).
  change (dict_get _ "tag_types" (PDict [])) with (PDict tag_types).
  cbn [truthy py_fromisoformat].
  destruct (String.eqb_spec (isoformat E ts) ""); [contradiction|].
  cbn [negb]. run. rewrite Hparse. run.
  rewrite (py_items_NoDup _ Hnd). run.
  split; [reflexivity|]. split; [symmetry; exact Hts|].
  intros hw_type. cbn [manager_after fst snd _tag_types].
  rewrite (load_serialised hw_type _ _ Hser (NoDup_fst_map_to_list _)).
  rewrite list_to_map_to_list, lookup_empty. unfold reloaded.
  destruct (_tag_types m !! hw_type); reflexivity.
Qed.

Lemma offline_iso_round_trip (now_ : Z) : iso_round_trip (offline now_).
Proof.
  intros ts. split; [apply py_int_py_str|].
  change (isoformat (offline now_) ts) with (pretty ts).
  intros H. destruct ts as [|p|p]; [discriminate| |].
  - change (pretty (Z.pos p)) with (pretty (N.pos p)) in H.
    unfold pretty, pretty_N in H.
    destruct (decide (N.pos p = 0%N)); [discriminate|].
    rewrite pretty_N_go_step in H by lia.
    destruct (pretty_N_go_scan (N.pos p `div` 10)
                (String (pretty_N_char (N.pos p `mod` 10)) ""))
      as (l & Hl & _).
    rewrite H in Hl. destruct l; discriminate Hl.
  - change (pretty (Z.neg p)) with ("-" +:+ pretty (N.pos p)) in H.
    discriminate H.
Qed.

Lemma saved_table_loads_back_witness :
  let x := _save_to_store (offline 9) (warm 5, blank) in
  ∃ blob,
    store (world_after x) = Some blob ∧
    usable (Some blob) = Some blob ∧
    let y := _load_from_payload (offline 9) blob (__init__, blank) in
    result_of y = Ret tt ∧
    _last_update (manager_after y) = _last_update (manager_after x) ∧
    ∀ hw_type,
      _tag_types (manager_after y) !! hw_type
      = reloaded (_tag_types (warm 5)) hw_type.
Proof.
  apply (saved_table_loads_back (offline 9) (warm 5) __init__ blank blank).
  - apply offline_iso_round_trip.
  - reflexivity.
  - vm_compute. reflexivity.
Defined.

(** *** The payload loop *)

Lemma load_item_skips (tbl : gmap Z TagType.t) (key : string) (value : pyval) :
  is_ret (py_int 10 key) = false ∨ (∀ d, value ≠ PDict d) →
  load_item tbl (key, value) = tbl.
Proof.
  unfold load_item. intros [Hkey|Hval].
  - destruct (py_int 10 key); [discriminate|reflexivity].
  - destruct (py_int 10 key); [|reflexivity].
    destruct value; try reflexivity. destruct (Hval d). reflexivity.
Qed.

Lemma loaded_item_is_present (after : list (string * pyval)) (type_id : Z)
    (r : TagType.t) :
  ∀ tbl, tbl !! type_id = Some r →
         (∀ key value, (key, value) ∈ after → py_int 10 key ≠ Ret type_id) →
         foldl load_item tbl after !! type_id = Some r.
Proof.
  induction after as [|[key value] after IH]; intros tbl Hl Hother;
    [exact Hl|].
  cbn [foldl]. apply IH.
  - unfold load_item. destruct (py_int 10 key) as [n|] eqn:Hn; [|exact Hl].
    destruct value; try exact Hl.
    rewrite lookup_insert_ne; [exact Hl|].
    intros ->. apply (Hother key (PDict d)); [left|exact Hn].
  - intros key' value' Hin. apply (Hother key' value'). right. exact Hin.
Qed.

(** X20: When [_load_from_payload] returns, the table is built from the items
    of the payload alone, whatever the manager held before.  An item whose
    key is not a decimal number or whose value is not a JSON object is left
    out without effect on the others, and an item with a numeric key and an
    object is loaded under that number, unless a later item has the same
    number. *)
Theorem payload_items_load_independently (E : env) (d : dict) (m : t)
    (w : world) :
  let x := _load_from_payload E d (m, w) in
  result_of x = Ret tt →
  ∃ items,
    py_items (dict_get d "tag_types" (PDict [])) = Ret items ∧
    _tag_types (manager_after x) = foldl load_item ∅ items ∧
    (∀ before after key value,
       items = (before ++ (key, value) :: after)%list →
       is_ret (py_int 10 key) = false ∨ (∀ d', value ≠ PDict d') →
       _tag_types (manager_after x)
       = foldl load_item ∅ (before ++ after)%list) ∧
    (∀ before after key type_id d',
       items = (before ++ (key, PDict d') :: after)%list →
       py_int 10 key = Ret type_id →
       (∀ key' value', (key', value') ∈ after →
                       py_int 10 key' ≠ Ret type_id) →
       _tag_types (manager_after x) !! type_id
       = Some (TagType.from_dict type_id d')).
Proof.
  cbv zeta.
  destruct (load_from_payload_spec E d m w)
    as (r & m' & w' & -> & _ & _ & _ & _ & Hm).
  cbn [result_of manager_after fst snd]. intros ->.
  destruct (Hm eq_refl) as (items & ts & Hitems & ->).
  exists items. cbn [_tag_types]. split; [exact Hitems|].
  split; [reflexivity|]. split.
  - intros before after key value -> Hbad.
    rewrite !foldl_app. cbn [foldl]. rewrite load_item_skips by exact Hbad.
    reflexivity.
  - intros before after key type_id d' -> Hkey Hother.
    rewrite foldl_app. cbn [foldl]. apply loaded_item_is_present;
      [|exact Hother].
    unfold load_item. rewrite Hkey. apply lookup_insert_eq.
Qed.

Lemma payload_items_load_independently_witness :
  let d := [ ("version", PInt 1);
             ("tag_types",
               PDict [ ("x", PDict []); ("7", PList []);
                       ("8", PDict [("name", PStr "M")]) ]) ] in
  let x := _load_from_payload (offline 3) d (warm 0, blank) in
  ∃ items,
    py_items (dict_get d "tag_types" (PDict [])) = Ret items ∧
    _tag_types (manager_after x) = foldl load_item ∅ items.
Proof.
  intros d.
  destruct (payload_items_load_independently (offline 3) d (warm 0) blank
              eq_refl) as (items & H1 & H2 & _).
  exists items. split; assumption.
Defined.

(** *** Migration *)

(** X21: A legacy blob that loads into a table with a record [to_dict] cannot
    write stops the migration: the load protocol raises [TypeError], nothing
    is written to the current store, and the legacy store is not removed. *)
Theorem migration_stops_on_unwritable_record (E : env) (m : t) (w : world)
    (d : dict) (items : list (string * pyval)) :
  present (read_store E w) = false →
  usable (read_legacy_store E w) = Some d →
  result_of (_load_from_payload E d (m, w)) = Ret tt →
  py_items (dict_get d "tag_types" (PDict [])) = Ret items →
  is_ret (serialise (foldl load_item ∅ items)) = false →
  let x := load_stored_data E (m, w) in
  result_of x = Raise TypeError ∧
  _tag_types (manager_after x) = foldl load_item ∅ items ∧
  store (world_after x) = store w ∧
  legacy_store (world_after x) = legacy_store w.
Proof.
  intros Hp Hd Hload Hitems Hser. cbv zeta. unfold load_stored_data. bind.
  destruct (read_store_spec E m w) as (w1 & -> & _ & _ & Hl1 & Hs1).
  assert (Hr1 : read_legacy_store E w1 = read_legacy_store E w)
    by (unfold read_legacy_store; rewrite Hl1; reflexivity).
  assert (Hu : usable (read_store E w) = None).
  { unfold usable, present in *. destruct (read_store E w) as [d0|];
      [|reflexivity]. rewrite Hp. reflexivity. }
  rewrite Hu, Hp.
  destruct (read_legacy_store_spec E m w1) as (w2 & -> & _ & _ & Hl2 & Hs2).
  rewrite Hr1, Hd.
  assert (Hsame : ∀ w3, result_of (_load_from_payload E d (m, w3))
                        = result_of (_load_from_payload E d (m, w)) ∧
                        _tag_types (manager_after (_load_from_payload E d (m, w3)))
                        = _tag_types (manager_after (_load_from_payload E d (m, w)))).
  { intros w3. unfold _load_from_payload. run. rewrite Hitems.
    destruct (truthy (dict_get d "last_update" PNone)); run;
      try destruct (py_fromisoformat E (dict_get d "last_update" PNone))
        as [ts|e];
      try destruct (TypeError_or_ValueError e); split; reflexivity. }
  destruct (Hsame w2) as [Hres Htbl]. rewrite Hload in Hres.
  destruct (load_from_payload_spec E d m w2)
    as (r3 & m3 & w3 & Heq & _ & Hs3 & Hl3 & _ & Hm3).
  rewrite Heq in Hres, Htbl |- *. cbn [result_of fst] in Hres. subst r3.
  destruct (Hm3 eq_refl) as (items' & ts & Hitems' & ->).
  rewrite Hitems in Hitems'. injection Hitems' as <-.
  unfold _save_to_store. run.
  destruct (serialise (foldl load_item ∅ items)) as [tag_types|e] eqn:Hs;
    [discriminate|].
  rewrite (serialise_raises_TypeError _ _ Hs).
  cbn [result_of manager_after world_after fst snd _tag_types].
  repeat split; congruence.
Qed.

Lemma migration_stops_on_unwritable_record_witness :
  let d := [ ("version", PInt 1);
             ("tag_types", PDict [ ("8", PDict [("options", PNone)]) ]) ] in
  let w := {| store := None; legacy_store := Some d; legacy_file := true;
              ticks := 0; refreshes := 0; trace := [] |} in
  let x := load_stored_data (offline 3) (__init__, w) in
  result_of x = Raise TypeError ∧
  _tag_types (manager_after x)
  = foldl load_item ∅ [ ("8", PDict [("options", PNone)]) ] ∧
  store (world_after x) = store w ∧
  legacy_store (world_after x) = legacy_store w.
Proof.
  intros d w.
  apply (migration_stops_on_unwritable_record (offline 3) __init__ w d
           [ ("8", PDict [("options", PNone)]) ]); reflexivity.
Defined.

(** ** Lookups *)

(** X22: [get_tag_info] warms the manager up and then agrees with the other
    lookups: it returns the record of an ID exactly when [is_in_hw_map]
    holds for it afterwards, that record is the one whose width and height
    [get_hw_dimensions] gives, and for an unknown ID it raises [KeyError];
    when the warm-up raises, it raises the same exception. *)
Theorem get_tag_info_agrees_with_lookups (E : env) (hw_type : Z) (m : t)
    (w : world) :
  let x := get_tag_info E hw_type (m, w) in
  let y := ensure_types_loaded E (m, w) in
  manager_after x = manager_after y ∧
  (∀ e, result_of y = Raise e → result_of x = Raise e) ∧
  (result_of y = Ret tt →
   (is_in_hw_map (manager_after x) hw_type = false →
      result_of x = Raise KeyError) ∧
   (is_in_hw_map (manager_after x) hw_type = true →
      ∃ r, result_of x = Ret r ∧
           _tag_types (manager_after x) !! hw_type = Some r ∧
           get_hw_dimensions (manager_after x) hw_type
           = (TagType.width r, TagType.height r))).
Proof.
  cbv zeta. unfold get_tag_info. run.
  destruct (ensure_types_loaded E (m, w)) as [[[]|e] [m1 w1]]; run.
  - unfold is_in_hw_map, get_hw_dimensions.
    destruct (_tag_types m1 !! hw_type) as [r|] eqn:Hl; run; rewrite ?Hl.
    + split; [reflexivity|]. split; [discriminate|]. intros _. split.
      * intros Hno. apply bool_decide_eq_false in Hno.
        cbn [manager_after fst snd] in Hno. rewrite Hl in Hno.
        destruct Hno. eauto.
      * intros _. exists r. cbn [result_of manager_after fst snd].
        rewrite Hl. repeat split.
    + split; [reflexivity|]. split; [discriminate|]. intros _. split.
      * reflexivity.
      * intros Hyes. apply bool_decide_eq_true in Hyes.
        cbn [manager_after fst snd] in Hyes. rewrite Hl in Hyes.
        destruct Hyes as [? Hyes]. discriminate Hyes.
  - split; [reflexivity|]. split; [|discriminate].
    intros e' [= <-]. reflexivity.
Qed.

Lemma get_tag_info_agrees_with_lookups_witness :
  result_of (get_tag_info (offline 7) 1000 (__init__, blank))
  = Raise KeyError.
Proof.
  apply (proj1 (proj2 (proj2 (get_tag_info_agrees_with_lookups (offline 7)
                                1000 __init__ blank)) eq_refl)).
  reflexivity.
Defined.

(** ** The download loop and validation *)

(** X23: Validation is a membership test, so a JSON array that lists the four
    field names passes it; such a body is still not installed, since the
    constructor needs an object: the entry is skipped. *)
Theorem validated_array_is_not_installed (E : env) (k : nat) (l : list pyval)
    (tbl : gmap Z TagType.t) (hw_type : Z) (url : pyval) :
  (∀ field, field ∈ required_fields → PStr field ∈ l) →
  get_file E k url = Response 200 (Ret (PList l)) →
  _validate_tag_definition (PList l) = Ret true ∧
  download_entry E k tbl (hw_type, url) = tbl.
Proof.
  intros Hall Hfile. split.
  - unfold _validate_tag_definition.
    assert (Hin : ∀ field, field ∈ required_fields →
                           existsb (is_pystr field) l = true).
    { intros field Hf. apply existsb_exists. exists (PStr field).
      split; [apply list_elem_of_In, Hall, Hf|]. cbn. apply String.eqb_refl. }
    unfold required_fields in *. cbn [all_in py_in mbind res_bind].
    rewrite !Hin by set_solver. reflexivity.
  - rewrite download_entry_spec, Hfile. reflexivity.
Qed.

Lemma validated_array_is_not_installed_witness :
  let l := [PStr "height"; PStr "width"; PStr "name"; PStr "version"] in
  let E := remote 0 [("0A.json", Response 200 (Ret (PList l)))] in
  _validate_tag_definition (PList l) = Ret true ∧
  download_entry E 0 ∅ (10, PStr "https://raw.example/0A.json") = ∅.
Proof.
  intros l E.
  apply (validated_array_is_not_installed E 0 l ∅ 10
           (PStr "https://raw.example/0A.json")).
  - intros field Hf. unfold required_fields in Hf.
    rewrite !elem_of_cons, elem_of_nil in Hf.
    destruct Hf as [->|[->|[->|[->|[]]]]]; repeat constructor.
  - reflexivity.
Defined.

(** ** How many calls a warm-up makes *)

Lemma within_bind {A B} (n1 k1 n2 k2 : nat) (c : M A) (f : A → M B) :
  within n1 k1 c → (∀ a, within n2 k2 (f a)) →
  within (n1 + n2) (k1 + k2) (c ≫= f).
Proof.
  intros Hc Hf m w. unfold mbind, M_bind.
  specialize (Hc m w). destruct (c (m, w)) as [[a|e] [m1 w1]].
  - specialize (Hf a m1 w1). cbn [world_after snd] in *. lia.
  - cbn [world_after snd] in *. lia.
Qed.

Lemma within_try_except {A} (n1 k1 n2 k2 : nat) (body handler : M A)
    (catches : exn → bool) :
  within n1 k1 body → within n2 k2 handler →
  within (n1 + n2) (k1 + k2) (try_except body catches handler).
Proof.
  intros Hb Hh m w. unfold try_except.
  specialize (Hb m w). destruct (body (m, w)) as [[a|e] [m1 w1]].
  - cbn [world_after snd] in *. lia.
  - destruct (catches e).
    + specialize (Hh m1 w1). cbn [world_after snd] in *. lia.
    + cbn [world_after snd] in *. lia.
Qed.

Lemma within_weaken {A} (n k n' k' : nat) (c : M A) :
  (n ≤ n')%nat → (k ≤ k')%nat → within n k c → within n' k' c.
Proof. intros Hn Hk Hc m w. specialize (Hc m w). lia. Qed.

Lemma within_ret {A} (a : A) : within 0 0 (mret a).
Proof. intros m w. cbn. lia. Qed.

(** A call that appends no refresh and no cleanup to the trace. *)
Lemma within_quiet {A} (c : M A) :
  (∀ m w, fetch_attempts (world_after (c (m, w))) = fetch_attempts w ∧
          cleanups (world_after (c (m, w))) = cleanups w) →
  within 0 0 c.
Proof. intros H m w. destruct (H m w) as [-> ->]. lia. Qed.

Lemma within_store_async_load (E : env) : within 0 0 (store_async_load E).
Proof.
  apply within_quiet. intros m w. unfold store_async_load, fetch_attempts,
    cleanups. run. destruct (load_fails E); world_facts.
Qed.

Lemma within_legacy_store_async_load (E : env) :
  within 0 0 (legacy_store_async_load E).
Proof.
  apply within_quiet. intros m w. unfold legacy_store_async_load,
    fetch_attempts, cleanups. run. destruct (legacy_load_fails E);
    world_facts.
Qed.

Lemma within_async_remove_store (E : env) : within 0 0 (async_remove_store E).
Proof.
  apply within_quiet. intros m w. unfold async_remove_store, fetch_attempts,
    cleanups. run. destruct (remove_store_fails E); world_facts.
Qed.

Lemma within_load_from_payload (E : env) (d : dict) :
  within 0 0 (_load_from_payload E d).
Proof.
  apply within_quiet. intros m w.
  destruct (load_from_payload_spec E d m w)
    as (r & m' & w' & -> & Htr & _).
  unfold fetch_attempts, cleanups. cbn [world_after snd]. rewrite Htr.
  split; reflexivity.
Qed.

Lemma within_save_to_store (E : env) : within 0 0 (_save_to_store E).
Proof.
  apply within_quiet. intros m w. unfold _save_to_store, fetch_attempts,
    cleanups. run.
  destruct (_last_update m); run;
    destruct (serialise (_tag_types m)); run;
    try destruct (save_fails E); world_facts.
Qed.

Lemma within_load_fallback_types (E : env) :
  within 0 0 (_load_fallback_types E).
Proof.
  apply within_quiet. intros m w. unfold _load_fallback_types,
    fetch_attempts, cleanups. run. world_facts.
Qed.

Lemma within_cleanup_legacy_file (E : env) :
  within 0 1 (_cleanup_legacy_file E).
Proof.
  intros m w. unfold _cleanup_legacy_file, _remove, fetch_attempts, cleanups.
  run. destruct (legacy_file w); [destruct (remove_file_fails E)|];
    try change (OSError_ OSError) with true; cbv iota; world_facts.
Qed.

Lemma within_fetch_tag_types (E : env) : within 1 0 (_fetch_tag_types E).
Proof.
  intros m w.
  destruct (fetch_frame E m w) as (b & m' & w' & -> & Hn & Hc & _).
  cbn [world_after snd]. lia.
Qed.

Lemma within_load_stored_data (E : env) : within 1 1 (load_stored_data E).
Proof.
  unfold load_stored_data.
  apply (within_bind 0 0 1 1);
    [apply (within_try_except 0 0 0 0);
       [apply within_store_async_load|apply within_ret]|].
  intros stored_data.
  destruct (usable stored_data);
    [apply (within_weaken 0 0); [lia|lia|apply within_load_from_payload]|].
  apply (within_bind 0 0 1 1).
  - destruct (present stored_data); [apply within_ret|].
    apply (within_bind 0 0 0 0);
      [apply (within_try_except 0 0 0 0);
         [apply within_legacy_store_async_load|apply within_ret]|].
    intros legacy_data. destruct (usable legacy_data); [|apply within_ret].
    apply (within_bind 0 0 0 0); [apply within_load_from_payload|intros _].
    apply (within_bind 0 0 0 0); [apply within_save_to_store|intros _].
    apply (within_bind 0 0 0 0); [|intros _; apply within_ret].
    apply (within_try_except 0 0 0 0);
      [apply within_async_remove_store|apply within_ret].
  - intros [|];
      [apply (within_weaken 0 0); [lia|lia|apply within_ret]|].
    apply (within_bind 1 0 0 1); [apply within_fetch_tag_types|].
    intros [|]; [apply within_cleanup_legacy_file|].
    apply (within_bind 0 0 0 1);
      [apply within_quiet; intros; split; reflexivity|intros m0].
    apply (within_bind 0 0 0 1); [|intros _; apply within_cleanup_legacy_file].
    destruct (is_empty (_tag_types m0));
      [apply within_load_fallback_types|apply within_ret].
Qed.

(** X24: One call of [ensure_types_loaded] makes at most two refresh attempts
    (one of the load protocol, one for staleness) and at most one attempt
    at removing the legacy file; on a populated manager it makes at most
    one refresh attempt and never touches the legacy file. *)
Theorem warm_up_call_budget (E : env) (m : t) (w : world) :
  let w' := world_after (ensure_types_loaded E (m, w)) in
  (fetch_attempts w' ≤ fetch_attempts w + 2)%nat ∧
  (cleanups w' ≤ cleanups w + 1)%nat ∧
  (_tag_types m ≠ ∅ →
   (fetch_attempts w' ≤ fetch_attempts w + 1)%nat ∧
   cleanups w' = cleanups w ∧ legacy_file w' = legacy_file w).
Proof.
  cbv zeta.
  assert (Htail : ∀ (m2 : t),
    within 1 0
      (expired ←
         match _last_update m2 with
         | Some last_update =>
             ts ← now E; mret (older_than_cache_duration ts last_update)
         | None => mret true
         end;
       if expired : bool then _fetch_tag_types E;; mret () else mret ())).
  { intros m2. apply (within_bind 0 0 1 0).
    - destruct (_last_update m2); [|apply within_ret].
      apply (within_bind 0 0 0 0);
        [apply within_quiet; intros; split; reflexivity
        |intros; apply within_ret].
    - intros [|]; [|apply (within_weaken 0 0); [lia|lia|apply within_ret]].
      apply (within_bind 1 0 0 0);
        [apply within_fetch_tag_types|intros; apply within_ret]. }
  assert (Hall : within 2 1 (ensure_types_loaded E)).
  { unfold ensure_types_loaded.
    apply (within_bind 0 0 2 1);
      [apply within_quiet; intros; split; reflexivity|intros m0].
    apply (within_bind 1 1 1 0).
    - destruct (is_empty (_tag_types m0));
        [apply within_load_stored_data
        |apply (within_weaken 0 0); [lia|lia|apply within_ret]].
    - intros _. apply (within_bind 0 0 1 0);
        [apply within_quiet; intros; split; reflexivity|intros m1].
      apply (within_bind 0 0 1 0).
      + destruct (is_empty (_tag_types m1));
          [apply within_load_fallback_types|apply within_ret].
      + intros _. apply (within_bind 0 0 1 0);
          [apply within_quiet; intros; split; reflexivity|intros m2].
        apply Htail. }
  destruct (Hall m w) as [Hf Hc]. split; [exact Hf|]. split; [exact Hc|].
  intros Hwarm. apply is_empty_false in Hwarm.
  unfold ensure_types_loaded. run. rewrite Hwarm. run. rewrite Hwarm. run.
  destruct (_last_update m); run;
    try match goal with
    | |- context [older_than_cache_duration ?a ?b] =>
        destruct (older_than_cache_duration a b)
    end;
    cbv beta;
    try match goal with
    | |- context [_fetch_tag_types E (?m0, ?w0)] =>
        destruct (fetch_frame E m0 w0)
          as (? & ? & ? & -> & Hn & Hc' & Hf' & _)
    end;
    cbn [world_after snd] in *; unfold fetch_attempts, cleanups in *;
    cbn [trace legacy_file] in *; repeat split; try lia; congruence.
Qed.

Lemma warm_up_call_budget_witness :
  let w' := world_after
              (ensure_types_loaded (remote (hours 100) five_files)
                 (warm 0, legacy_only)) in
  (fetch_attempts w' ≤ fetch_attempts legacy_only + 1)%nat ∧
  cleanups w' = cleanups legacy_only ∧
  legacy_file w' = legacy_file legacy_only.
Proof.
  apply (proj2 (proj2 (warm_up_call_budget (remote (hours 100) five_files)
                         (warm 0) legacy_only))).
  apply fallback_types_not_empty.
Defined.

(** ** The legacy file *)

(** X25: [_cleanup_legacy_file] never raises and changes only the legacy file:
    a file that is there is removed unless the removal fails, in which case
    it stays; once it is gone a further cleanup changes nothing but the
    trace. *)
Theorem cleanup_is_idempotent (E : env) (m : t) (w : world) :
  let x := _cleanup_legacy_file E (m, w) in
  let y := _cleanup_legacy_file E (manager_after x, world_after x) in
  result_of x = Ret tt ∧ result_of y = Ret tt ∧
  manager_after y = m ∧
  store (world_after y) = store w ∧
  legacy_store (world_after y) = legacy_store w ∧
  legacy_file (world_after x) = (legacy_file w && remove_file_fails E) ∧
  legacy_file (world_after y) = legacy_file (world_after x).
Proof.
  cbv zeta. unfold _cleanup_legacy_file, _remove. run.
  destruct (legacy_file w) eqn:Hf; [destruct (remove_file_fails E) eqn:Hr|];
    run; rewrite ?Hf, ?Hr; repeat split.
Qed.
